(** * The Ace editor application of OS.js ([src/index.js])

    The application is glue: it binds the brace (Ace) editor widget to the
    services of the OS.js desktop: the virtual filesystem, the context-menu
    service, the basic-application helper and the hyperapp state container.

    The embedding follows the source function by function.  The widget and the
    host services are not part of the repository; the widget is an interface
    ([AceEditor]), the host services are a record ([Host]), and every call the
    application makes on them is appended to a trace ([calls]).  Mutable
    bindings of the source ([let editor], [proc.args.file], the hyperapp
    state) are the fields of [World], threaded through a state-and-exception
    monad.  Promises are kept with the chain of callbacks hung on them and
    run when the host settles them.  [createMainWindow] and [createProcess]
    only pass [core], [proc] and the window on to [createApplication]. *)

From Stdlib Require Import String Ascii List NArith Bool DecimalString Lia.
Import ListNotations.
Open Scope string_scope.

(** ** JavaScript values, exceptions and truthiness *)

Inductive JsError :=
| TypeError (msg : string)
| SyntaxError (msg : string)
| Error (msg : string).

Inductive JsValue :=
| undefined
| text (s : string).

Inductive Result (A : Type) :=
| Ok (a : A)
| Throw (e : JsError).

Arguments Ok {A} a.
Arguments Throw {A} e.

(** [if (s)] on a string: every string but the empty one is truthy. *)
Definition truthy (s : string) : bool :=
  match s with
  | EmptyString => false
  | String _ _ => true
  end.

(** [if (x)] on a property that is a string or missing. *)
Definition truthy_opt (x : option string) : bool :=
  match x with
  | Some s => truthy s
  | None => false
  end.

(** [`${n}`] for a non-negative integer. *)
Definition show (n : N) : string := NilZero.string_of_uint (N.to_uint n).

(** ** Data of the host *)

(** A VFS file descriptor, also the payload of a drop. *)
Record VFSFile := {
  path : string;
  mime : option string;
  isFile : bool
}.

(** An entry of [modelist.modes]. *)
Module Mode.
Record t := { name : string; caption : string; mode : string }.
End Mode.

(** An entry of [themelist.themes]. *)
Module Theme.
Record t := { name : string; caption : string }.
End Theme.

(** A DOM element, by its handle. *)
Definition Element := N.

(** ** The editor widget

    What the application uses of [ace.edit(el)].  Commands return the widget
    after the call.  The one law is the part of the widget's contract the
    properties below rely on: changing the grammar of the session does not
    change the text of its document. *)

Class AceEditor (E : Type) := {
  edit : Element -> E;
  getValue : E -> string;
  setValue : string -> E -> E;
  editor_setTheme : string -> E -> E;
  resize : E -> E;
  blur : E -> E;
  focus : E -> E;
  session_setMode : string -> E -> E;
  session_getMode_id : E -> string;
  session_getLength : E -> N;
  selection_getCursor : E -> N * N;
  getValue_setMode : forall m e, getValue (session_setMode m e) = getValue e
}.

(** ** The hyperapp state container *)

Record State := {
  theme : string;
  mode : string;
  row : N;
  column : N;
  lines : N
}.

(** The first argument of [app(...)]. *)
Definition initial_state : State :=
  {| theme := "ace/theme/monokai"; mode := "none"; row := 0; column := 0; lines := 0 |}.

(** The partial states the actions return. *)
Inductive Partial :=
| status_slice (row column lines : N) (mode : string)
| theme_slice (theme : string).

(** hyperapp merges the slice an action returns into the state. *)
Definition merge (s : State) (p : Partial) : State :=
  match p with
  | status_slice r c l m =>
      {| theme := theme s; mode := m; row := r; column := c; lines := l |}
  | theme_slice t =>
      {| theme := t; mode := mode s; row := row s; column := column s; lines := lines s |}
  end.

(** ** Menus *)

(** What an [onclick] of a menu entry invokes: the closures over [actions]
    of the three menu builders, by the name of the action they call.  The
    builders below therefore take no [actions]. *)
Inductive Click :=
| click_menuNew
| click_menuOpen
| click_menuSave
| click_menuSaveAs
| click_menuQuit
| click_setTheme (name : string)
| click_setMode (name : string).

(** An entry of a context menu; [disabled] is [None] where the object
    literal has no such property. *)
Record MenuItem := {
  label : string;
  disabled : option bool;
  onclick : Click
}.

(** [!current] for [proc.args.file]. *)
Definition not_current (current : option VFSFile) : bool :=
  match current with
  | Some _ => false
  | None => true
  end.

(** [createFileMenu(current, actions, _)] *)
Definition createFileMenu (current : option VFSFile) (_t : string -> string) : list MenuItem :=
  [ {| label := _t "LBL_NEW"; disabled := None; onclick := click_menuNew |};
    {| label := _t "LBL_OPEN"; disabled := None; onclick := click_menuOpen |};
    {| label := _t "LBL_SAVE"; disabled := Some (not_current current); onclick := click_menuSave |};
    {| label := _t "LBL_SAVEAS"; disabled := None; onclick := click_menuSaveAs |};
    {| label := _t "LBL_QUIT"; disabled := None; onclick := click_menuQuit |} ].

(** [createThemeMenu(themes, current, actions)]; [current] is not used. *)
Definition createThemeMenu (themes : list Theme.t) : list MenuItem :=
  map (fun theme =>
         {| label := Theme.caption theme; disabled := None;
            onclick := click_setTheme (Theme.name theme) |}) themes.

(** [createModeMenu(modes, current, actions)]; [current] is not used. *)
Definition createModeMenu (modes : list Mode.t) : list MenuItem :=
  map (fun mode =>
         {| label := Mode.caption mode; disabled := None;
            onclick := click_setMode (Mode.name mode) |}) modes.

(** The context-menu service greys an entry out when its [disabled] is true. *)
Definition is_disabled (item : MenuItem) : bool :=
  match disabled item with
  | Some b => b
  | None => false
  end.

(** ** Calls on the widget and on the host, promises, events *)

(** One entry of the trace: a command sent to the widget or a call on a host
    service.  Reads of the widget ([getValue], [getCursor], ...) are not
    traced. *)
Inductive Call :=
| AceEdit (el : Element)
| EditorSetValue (contents : string)
| EditorSetTheme (theme : string)
| EditorResize
| EditorBlur
| EditorFocus
| SessionSetMode (mode : string)
| SelectionOnChangeCursor
| VfsReadfile (item : VFSFile)
| VfsWritefile (file : VFSFile) (data : string)
| ConsoleError (error : JsError)
| ContextmenuShow (position : Element) (menu : list MenuItem)
| BasicInit
| BasicDestroy
| BasicCreateNew
| BasicCreateOpenDialog
| BasicCreateSaveDialog
| BasicOpen (data : VFSFile)
| ProcDestroy.

(** The functions the application passes to [.then] and to [.catch]. *)
Inductive OnFulfilled := then_setText.
Inductive OnRejected := catch_console_error.

Inductive Link :=
| Then (f : OnFulfilled)
| Catch (f : OnRejected).

Inductive Settlement :=
| Fulfilled (v : JsValue)
| Rejected (e : JsError).

Inductive Request :=
| readfile (item : VFSFile)
| writefile (file : VFSFile) (data : string).

(** A promise the VFS returned, with the chain the application hung on it. *)
Record Promise := {
  request : Request;
  handlers : list Link
}.

(** The events of the basic-application helper the application listens to. *)
Inductive BasicEvent :=
| new_file
| save_file (item : VFSFile)
| open_file (item : VFSFile).

(** What a method of the helper does before it returns: the value it leaves
    in [proc.args.file], then the events it emits, in order. *)
Record Reaction := {
  file_after : option VFSFile;
  emitted : list BasicEvent
}.

(** [core.make('osjs/basic-application', proc, win, ...)]; each method is
    given the current [proc.args.file]. *)
Record BasicApplication := {
  basic_createNew : option VFSFile -> Reaction;
  basic_open : VFSFile -> option VFSFile -> Reaction;
  basic_init : option VFSFile -> Reaction
}.

(** Everything [createApplication] takes from [core], [proc] and brace. *)
Record Host := {
  translate : string -> string;
  modelist_getModeForPath : string -> Mode.t;
  modelist_modes : list Mode.t;
  themelist_themes : list Theme.t;
  RegExp : string -> Result (string -> bool);
  metadata_mimes : list string;
  basic : BasicApplication
}.

(** [String(x)] for a property that is a string or missing. *)
Definition ToString (x : option string) : string :=
  match x with
  | Some s => s
  | None => "undefined"
  end.

(** [mimes.find(m => (new RegExp(m)).test(s))]: the first pattern that
    matches, tried from the left; a pattern that does not compile throws. *)
Fixpoint find_mime (regexp : string -> Result (string -> bool))
  (mimes : list string) (s : string) : Result (option string) :=
  match mimes with
  | [] => Ok None
  | m :: rest =>
      match regexp m with
      | Throw e => Throw e
      | Ok re => if re s then Ok (Some m) else find_mime regexp rest s
      end
  end.

(** ** The application *)

Section Application.

Context {E : Type} `{AceEditor E}.
Variable host : Host.

(** The mutable bindings [createApplication] closes over, the promises still
    pending and the trace, oldest call first. *)
Record World := {
  editor : option E;
  args_file : option VFSFile;
  state : State;
  promises : list Promise;
  calls : list Call
}.

(** The world when [createApplication] returns: [let editor;] is still
    unset. *)
Definition initial_world (file : option VFSFile) : World :=
  {| editor := None; args_file := file; state := initial_state;
     promises := []; calls := [] |}.

(** How a listener ends: it returns a value, or it throws; either way the
    world is the one it has reached by then. *)
Inductive Outcome (A : Type) :=
| Done (a : A) (w : World)
| Thrown (e : JsError) (w : World).

Arguments Done {A} a w.
Arguments Thrown {A} e w.

Definition M (A : Type) : Type := World -> Outcome A.

Definition ret {A} (a : A) : M A := fun w => Done a w.

Definition bind {A B} (c : M A) (k : A -> M B) : M B :=
  fun w =>
    match c w with
    | Done a w' => k a w'
    | Thrown e w' => Thrown e w'
    end.

Definition throw {A} (e : JsError) : M A := fun w => Thrown e w.

Definition lift {A} (r : Result A) : M A :=
  fun w =>
    match r with
    | Ok a => Done a w
    | Throw e => Thrown e w
    end.

Notation "x <- c ;; k" := (bind c (fun x => k))
  (at level 61, c at next level, right associativity).
Notation "c ;; k" := (bind c (fun _ => k))
  (at level 61, right associativity).

Definition call (c : Call) : M unit :=
  fun w =>
    Done tt {| editor := editor w; args_file := args_file w; state := state w;
               promises := promises w; calls := calls w ++ [c] |}.

(** Reading [editor]; any property access on it throws while it is unset. *)
Definition the_editor : M E :=
  fun w =>
    match editor w with
    | Some e => Done e w
    | None => Thrown (TypeError "editor is undefined") w
    end.

Definition set_editor (e : E) : M unit :=
  fun w =>
    Done tt {| editor := Some e; args_file := args_file w; state := state w;
               promises := promises w; calls := calls w |}.

Definition get_file : M (option VFSFile) := fun w => Done (args_file w) w.

Definition set_file (f : option VFSFile) : M unit :=
  fun w =>
    Done tt {| editor := editor w; args_file := f; state := state w;
               promises := promises w; calls := calls w |}.

Definition get_state : M State := fun w => Done (state w) w.

Definition set_state (s : State) : M unit :=
  fun w =>
    Done tt {| editor := editor w; args_file := args_file w; state := s;
               promises := promises w; calls := calls w |}.

(** A call on the VFS: traced, and its promise kept with the chain [hs]. *)
Definition vfs (r : Request) (hs : list Link) : M unit :=
  fun w =>
    let c := match r with
             | readfile item => VfsReadfile item
             | writefile file data => VfsWritefile file data
             end in
    Done tt {| editor := editor w; args_file := args_file w; state := state w;
               promises := promises w ++ [{| request := r; handlers := hs |}];
               calls := calls w ++ [c] |}.

(** [const setText = contents => editor.setValue(contents)] *)
Definition setText (contents : string) : M JsValue :=
  e <- the_editor ;;
  set_editor (setValue contents e) ;;
  call (EditorSetValue contents) ;;
  ret (text contents).

(** [const getText = () => editor.getValue()] *)
Definition getText : M string :=
  e <- the_editor ;;
  ret (getValue e).

(** How hyperapp wires an action: the slice the body returns, if any, is
    merged into the state; the result is handed back to the caller. *)
Definition wire (body : M (option Partial)) : M (option Partial) :=
  r <- body ;;
  match r with
  | Some p => s <- get_state ;; set_state (merge s p) ;; ret r
  | None => ret r
  end.

(** *** The actions *)

Definition setStatus (row column lines : N) (mode : string) : M (option Partial) :=
  ret (Some (status_slice row column lines mode)).

Definition setTheme (theme : string) : M (option Partial) :=
  e <- the_editor ;;
  set_editor (editor_setTheme theme e) ;;
  call (EditorSetTheme theme) ;;
  ret (Some (theme_slice theme)).

Definition save : M (option Partial) :=
  file <- get_file ;;
  match file with
  | Some f =>
      contents <- getText ;;
      vfs (writefile f contents) [] ;;
      ret None
  | None => ret None
  end.

Definition load (item : VFSFile) : M (option Partial) :=
  let mode := modelist_getModeForPath host (path item) in
  e <- the_editor ;;
  set_editor (session_setMode (Mode.mode mode) e) ;;
  call (SessionSetMode (Mode.mode mode)) ;;
  vfs (readfile item) [Then then_setText; Catch catch_console_error] ;;
  ret None.

Definition fileMenu (target : Element) : M (option Partial) :=
  file <- get_file ;;
  call (ContextmenuShow target (createFileMenu file (translate host))) ;;
  ret None.

Definition themeMenu (target : Element) : M (option Partial) :=
  call (ContextmenuShow target (createThemeMenu (themelist_themes host))) ;;
  ret None.

Definition modeMenu (target : Element) : M (option Partial) :=
  call (ContextmenuShow target (createModeMenu (modelist_modes host))) ;;
  ret None.

(** *** The listeners on the helper's events (the last three lines of
    [createApplication]) *)

Definition on_basic (ev : BasicEvent) : M unit :=
  match ev with
  | new_file => setText "" ;; ret tt
  | save_file _ => wire save ;; ret tt
  | open_file item => wire (load item) ;; ret tt
  end.

Fixpoint emit (evs : list BasicEvent) : M unit :=
  match evs with
  | [] => ret tt
  | ev :: rest => on_basic ev ;; emit rest
  end.

(** A method of the helper runs: [proc.args.file] is replaced, then the
    events reach the listeners. *)
Definition react (r : Reaction) : M unit :=
  set_file (file_after r) ;;
  emit (emitted r).

Definition menuNew : M (option Partial) :=
  call BasicCreateNew ;;
  file <- get_file ;;
  react (basic_createNew (basic host) file) ;;
  ret None.

Definition menuOpen : M (option Partial) :=
  call BasicCreateOpenDialog ;;
  ret None.

Definition menuSave : M (option Partial) := wire save.

Definition menuSaveAs : M (option Partial) :=
  call BasicCreateSaveDialog ;;
  ret None.

Definition menuQuit : M (option Partial) :=
  call ProcDestroy ;;
  ret None.

(** A click on an entry of a context menu.  The mode menu names
    [actions.setMode], which the action table does not have. *)
Definition click (item : MenuItem) : M unit :=
  match onclick item with
  | click_menuNew => wire menuNew ;; ret tt
  | click_menuOpen => wire menuOpen ;; ret tt
  | click_menuSave => wire menuSave ;; ret tt
  | click_menuSaveAs => wire menuSaveAs ;; ret tt
  | click_menuQuit => wire menuQuit ;; ret tt
  | click_setTheme name => wire (setTheme name) ;; ret tt
  | click_setMode _ => throw (TypeError "actions.setMode is not a function")
  end.

(** *** The view *)

(** The text of the [Statusbar] row for a state. *)
Definition statusbar (s : State) : string :=
  "Row: " ++ show (row s) ++ " Column: " ++ show (column s) ++
  " Lines: " ++ show (lines s) ++ " Mode: " ++ mode s.

(** The listener on [changeCursor]: the widget is read and [ha.setStatus]
    is called with what was read. *)
Definition on_changeCursor : M unit :=
  e <- the_editor ;;
  let (row, column) := selection_getCursor e in
  let lines := session_getLength e in
  let mode := session_getMode_id e in
  wire (setStatus row column lines mode) ;;
  ret tt.

(** [oncreate] of the editor container. *)
Definition oncreate (el : Element) : M unit :=
  fun w =>
    match editor w with
    | None =>
        (call (AceEdit el) ;;
         s <- get_state ;;
         set_editor (editor_setTheme (theme s) (edit el)) ;;
         call (EditorSetTheme (theme s)) ;;
         call SelectionOnChangeCursor ;;
         call BasicInit ;;
         file <- get_file ;;
         react (basic_init (basic host) file)) w
    | Some _ => Done tt w
    end.

(** *** The listeners on the window and on the process *)

Definition on_proc_destroy : M unit := call BasicDestroy.

Definition on_resized : M unit :=
  e <- the_editor ;; set_editor (resize e) ;; call EditorResize.

Definition on_blur : M unit :=
  e <- the_editor ;; set_editor (blur e) ;; call EditorBlur.

Definition on_focus : M unit :=
  e <- the_editor ;; set_editor (focus e) ;; call EditorFocus.

(** [basic.open(data)] *)
Definition open (data : VFSFile) : M unit :=
  call (BasicOpen data) ;;
  file <- get_file ;;
  react (basic_open (basic host) data file).

Definition on_drop (data : VFSFile) : M unit :=
  if isFile data && truthy_opt (mime data) then
    found <- lift (find_mime (RegExp host) (metadata_mimes host) (ToString (mime data))) ;;
    if truthy_opt found then open data else ret tt
  else ret tt.

(** *** Promises settling *)

(** [setText] as a [.then] callback.  The VFS fulfils a read with text; on
    any other value the widget's [setValue] throws. *)
Definition on_fulfilled (f : OnFulfilled) (v : JsValue) : M JsValue :=
  match f, v with
  | then_setText, text contents => setText contents
  | then_setText, undefined => throw (TypeError "setValue of undefined")
  end.

(** [error => console.error(error)] *)
Definition on_rejected (f : OnRejected) (error : JsError) : M JsValue :=
  match f with
  | catch_console_error => call (ConsoleError error) ;; ret undefined
  end.

(** One link of a chain: [.then(f)] runs [f] on fulfilment and lets a
    rejection through; [.catch(f)] does the converse.  A callback that throws
    rejects the next promise of the chain. *)
Definition run_link (l : Link) (s : Settlement) (w : World) : Settlement * World :=
  match l, s with
  | Then f, Fulfilled v =>
      match on_fulfilled f v w with
      | Done v' w' => (Fulfilled v', w')
      | Thrown e w' => (Rejected e, w')
      end
  | Then _, Rejected e => (Rejected e, w)
  | Catch _, Fulfilled v => (Fulfilled v, w)
  | Catch f, Rejected e =>
      match on_rejected f e w with
      | Done v' w' => (Fulfilled v', w')
      | Thrown e' w' => (Rejected e', w')
      end
  end.

Fixpoint run_chain (ls : list Link) (s : Settlement) (w : World) : Settlement * World :=
  match ls with
  | [] => (s, w)
  | l :: rest => let (s', w') := run_link l s w in run_chain rest s' w'
  end.

(** The list without its [k]-th element. *)
Fixpoint remove_nth {A} (k : nat) (l : list A) : list A :=
  match k, l with
  | _, [] => []
  | O, _ :: rest => rest
  | S k', x :: rest => x :: remove_nth k' rest
  end.

(** The VFS settles the [k]-th pending promise: it leaves the pending list
    and its chain runs.  The result is the settlement of the last promise of
    the chain, a rejection there being one nothing handles, and the world
    after; [None] when there is no such promise. *)
Definition settle (k : nat) (s : Settlement) (w : World) : option (Settlement * World) :=
  match nth_error (promises w) k with
  | Some p =>
      Some (run_chain (handlers p) s
              {| editor := editor w; args_file := args_file w; state := state w;
                 promises := remove_nth k (promises w); calls := calls w |})
  | None => None
  end.

(** *** The event loop *)

(** What the desktop, the user and the widget can make happen once
    [createApplication] has returned.  [HelperActs] is the helper acting on
    its own, as when a dialog it opened is answered. *)
Inductive Input :=
| Mount (el : Element)
| MenubarClick (target : Element)
| MenuClick (item : MenuItem)
| CursorChange
| WinResized
| WinBlur
| WinFocus
| WinDrop (data : VFSFile)
| ProcDestroyed
| HelperActs (r : Reaction)
| Settled (k : nat) (s : Settlement).

(** The widget notifies a change of the cursor.  The listener is created
    and registered inside [oncreate], right after [editor = ace.edit(el)]:
    while [editor] is unset nothing listens and nothing runs. *)
Definition changeCursor : M unit :=
  fun w =>
    match editor w with
    | Some _ => on_changeCursor w
    | None => Done tt w
    end.

(** One turn of the event loop: the listener of the input runs to its end.
    Settling a promise that is not pending does nothing. *)
Definition step (i : Input) : M unit :=
  match i with
  | Mount el => oncreate el
  | MenubarClick target => wire (fileMenu target) ;; ret tt
  | MenuClick item => click item
  | CursorChange => changeCursor
  | WinResized => on_resized
  | WinBlur => on_blur
  | WinFocus => on_focus
  | WinDrop data => on_drop data
  | ProcDestroyed => on_proc_destroy
  | HelperActs r => react r
  | Settled k s =>
      fun w =>
        match settle k s w with
        | Some (_, w') => Done tt w'
        | None => Done tt w
        end
  end.

(** The turns of a list of inputs, one after the other.  An exception a
    listener throws ends its turn; the loop goes on from the world the
    listener had reached. *)
Fixpoint run (inputs : list Input) (w : World) : World :=
  match inputs with
  | [] => w
  | i :: rest =>
      match step i w with
      | Done _ w' => run rest w'
      | Thrown _ w' => run rest w'
      end
  end.

End Application.

Arguments World E : clear implicits.
Arguments M E A : clear implicits.
Arguments Outcome E A : clear implicits.
Arguments Done {E A} a w.
Arguments Thrown {E A} e w.

(** What [load] hangs on the promise of [vfs.readfile]. *)
Definition load_promise (item : VFSFile) : Promise :=
  {| request := readfile item;
     handlers := [Then then_setText; Catch catch_console_error] |}.

(** What [save] keeps of the promise of [vfs.writefile]: nothing is hung on
    it. *)
Definition save_promise (file : VFSFile) (data : string) : Promise :=
  {| request := writefile file data; handlers := [] |}.

(** The [vfs.writefile] calls of a trace, in order. *)
Fixpoint writes (cs : list Call) : list (VFSFile * string) :=
  match cs with
  | [] => []
  | VfsWritefile file data :: rest => (file, data) :: writes rest
  | _ :: rest => writes rest
  end.

(** The [basic.open] calls of a trace, in order. *)
Fixpoint opens (cs : list Call) : list VFSFile :=
  match cs with
  | [] => []
  | BasicOpen data :: rest => data :: opens rest
  | _ :: rest => opens rest
  end.

(** ** A reference widget and a reference host

    Concrete instances of the two interfaces, small enough to evaluate: they
    show the interfaces can be met and give the properties below inputs to
    run on. *)

(** Where a text ends, counted from [pos]: a line feed starts a new row. *)
Fixpoint end_of (s : string) (pos : N * N) : N * N :=
  match s with
  | EmptyString => pos
  | String c rest =>
      if Ascii.eqb c "010"%char
      then end_of rest ((fst pos + 1)%N, 0%N)
      else end_of rest (fst pos, (snd pos + 1)%N)
  end.

Record Buffer := {
  buffer_value : string;
  buffer_theme : string;
  buffer_mode : string;
  buffer_cursor : N * N
}.

Definition buffer_edit (el : Element) : Buffer :=
  {| buffer_value := ""; buffer_theme := ""; buffer_mode := "ace/mode/text";
     buffer_cursor := (0%N, 0%N) |}.

(** The widget selects the whole text it is given: the cursor goes to its
    end. *)
Definition buffer_setValue (s : string) (b : Buffer) : Buffer :=
  {| buffer_value := s; buffer_theme := buffer_theme b; buffer_mode := buffer_mode b;
     buffer_cursor := end_of s (0%N, 0%N) |}.

Definition buffer_setTheme (t : string) (b : Buffer) : Buffer :=
  {| buffer_value := buffer_value b; buffer_theme := t; buffer_mode := buffer_mode b;
     buffer_cursor := buffer_cursor b |}.

Definition buffer_setMode (m : string) (b : Buffer) : Buffer :=
  {| buffer_value := buffer_value b; buffer_theme := buffer_theme b; buffer_mode := m;
     buffer_cursor := buffer_cursor b |}.

Definition buffer_getLength (b : Buffer) : N :=
  (fst (end_of (buffer_value b) (0%N, 0%N)) + 1)%N.

#[export] Instance buffer_editor : AceEditor Buffer := {|
  edit := buffer_edit;
  getValue := buffer_value;
  setValue := buffer_setValue;
  editor_setTheme := buffer_setTheme;
  resize := fun b => b;
  blur := fun b => b;
  focus := fun b => b;
  session_setMode := buffer_setMode;
  session_getMode_id := buffer_mode;
  session_getLength := buffer_getLength;
  selection_getCursor := buffer_cursor;
  getValue_setMode := fun m e => eq_refl
|}.

(** [s] ends with [suffix]. *)
Fixpoint ends_with (suffix s : string) : bool :=
  String.eqb s suffix ||
  match s with
  | EmptyString => false
  | String _ rest => ends_with suffix rest
  end.

Definition text_mode : Mode.t :=
  {| Mode.name := "text"; Mode.caption := "Text"; Mode.mode := "ace/mode/text" |}.

Definition python_mode : Mode.t :=
  {| Mode.name := "python"; Mode.caption := "Python"; Mode.mode := "ace/mode/python" |}.

Definition javascript_mode : Mode.t :=
  {| Mode.name := "javascript"; Mode.caption := "JavaScript"; Mode.mode := "ace/mode/javascript" |}.

(** A mode list of three grammars, the grammar chosen by extension. *)
Definition ref_getModeForPath (p : string) : Mode.t :=
  if ends_with ".py" p then python_mode
  else if ends_with ".js" p then javascript_mode
  else text_mode.

(** The characters with a meaning of their own in a pattern. *)
Definition is_syntax_char (c : ascii) : bool :=
  existsb (Ascii.eqb c)
    ["^"; "$"; "\"; "."; "*"; "+"; "?"; "("; ")"; "["; "]"; "{"; "}"; "|"]%char.

(** The text a pattern of literal characters stands for; a backslash before
    a syntax character, [/] or [-] makes that character literal.  [None] for
    a pattern outside this fragment. *)
Fixpoint literal_of (p : string) : option string :=
  match p with
  | EmptyString => Some EmptyString
  | String c rest =>
      if Ascii.eqb c "\"%char then
        match rest with
        | String d rest' =>
            if is_syntax_char d || Ascii.eqb d "/"%char || Ascii.eqb d "-"%char
            then option_map (String d) (literal_of rest')
            else None
        | EmptyString => None
        end
      else if is_syntax_char c then None
      else option_map (String c) (literal_of rest)
  end.

(** [lit] occurs in [s]. *)
Fixpoint occurs (lit s : string) : bool :=
  String.prefix lit s ||
  match s with
  | EmptyString => false
  | String _ rest => occurs lit rest
  end.

(** [new RegExp(p)] on the fragment: literal characters, after an optional
    [^].  The empty pattern matches every string.  Patterns outside the
    fragment are refused. *)
Definition literal_RegExp (p : string) : Result (string -> bool) :=
  match p with
  | String "^" q =>
      match literal_of q with
      | Some lit => Ok (String.prefix lit)
      | None => Throw (SyntaxError p)
      end
  | _ =>
      match literal_of p with
      | Some lit => Ok (occurs lit)
      | None => Throw (SyntaxError p)
      end
  end.

(** A helper with the flows the application expects: creating a document
    forgets the file and emits [new-file]; opening one remembers it and emits
    [open-file]; [init] opens the file of the launch arguments, if any. *)
Definition ref_basic : BasicApplication :=
  {| basic_createNew := fun _ => {| file_after := None; emitted := [new_file] |};
     basic_open := fun item _ => {| file_after := Some item; emitted := [open_file item] |};
     basic_init := fun file =>
       match file with
       | Some item => {| file_after := Some item; emitted := [open_file item] |}
       | None => {| file_after := None; emitted := [new_file] |}
       end |}.

Definition ref_host (mimes : list string) : Host :=
  {| translate := fun key => key;
     modelist_getModeForPath := ref_getModeForPath;
     modelist_modes := [javascript_mode; python_mode; text_mode];
     themelist_themes := [{| Theme.name := "ace/theme/monokai"; Theme.caption := "Monokai" |}];
     RegExp := literal_RegExp;
     metadata_mimes := mimes;
     basic := ref_basic |}.

Definition main_py : VFSFile :=
  {| path := "home:/main.py"; mime := Some "text/x-python"; isFile := true |}.

Definition notes_txt : VFSFile :=
  {| path := "home:/notes.txt"; mime := Some "text/plain"; isFile := true |}.

(** A mounted widget holding two lines, the cursor on the second. *)
Definition two_lines : Buffer :=
  {| buffer_value := "import os" ++ String "010"%char "print(os.name)";
     buffer_theme := "ace/theme/monokai"; buffer_mode := "ace/mode/python";
     buffer_cursor := (1%N, 5%N) |}.

Definition world_with (file : option VFSFile) (b : Buffer) : World Buffer :=
  {| editor := Some b; args_file := file; state := initial_state;
     promises := []; calls := [] |}.

(** The widget has been created: [oncreate] has run. *)
Definition mounted {E : Type} (w : World E) : Prop := editor w <> None.

(** The world a listener has reached when it ends. *)
Definition world_of {E A : Type} (o : Outcome E A) : World E :=
  match o with
  | Done _ w => w
  | Thrown _ w => w
  end.

(** The computation never unmounts the widget. *)
Definition keeps {E A : Type} (c : M E A) : Prop :=
  forall w, mounted w -> mounted (world_of (c w)).

(** The pattern [m] compiles and matches [s]. *)
Definition pattern_matches (regexp : string -> Result (string -> bool)) (m s : string) : Prop :=
  exists re, regexp m = Ok re /\ re s = true.

(** The pattern [m] compiles. *)
Definition pattern_compiles (regexp : string -> Result (string -> bool)) (m : string) : Prop :=
  exists re, regexp m = Ok re.

(** What the drop listener is meant to test: the data is a file, has a MIME
    type, and some pattern of the MIME list matches it. *)
Definition accepted (host : Host) (data : VFSFile) : Prop :=
  isFile data = true /\
  truthy_opt (mime data) = true /\
  exists m, In m (metadata_mimes host) /\
            pattern_matches (RegExp host) m (ToString (mime data)).

(** The calls [oncreate] makes once, when it creates the widget. *)
Definition is_mounting (c : Call) : bool :=
  match c with
  | AceEdit _ | SelectionOnChangeCursor | BasicInit => true
  | _ => false
  end.

Definition is_write (c : Call) : bool :=
  match c with
  | VfsWritefile _ _ => true
  | _ => false
  end.

Definition is_save_file (ev : BasicEvent) : bool :=
  match ev with
  | save_file _ => true
  | _ => false
  end.

(** The inputs that can reach the save action: a click on Save, and every
    method of the helper that emits [save-file] while it runs.  [file] is
    [proc.args.file] when the input arrives. *)
Definition may_write (host : Host) (file : option VFSFile) (i : Input) : bool :=
  match i with
  | Mount _ => existsb is_save_file (emitted (basic_init (basic host) file))
  | MenuClick item =>
      match onclick item with
      | click_menuSave => true
      | click_menuNew => existsb is_save_file (emitted (basic_createNew (basic host) file))
      | _ => false
      end
  | WinDrop data => existsb is_save_file (emitted (basic_open (basic host) data file))
  | HelperActs r => existsb is_save_file (emitted r)
  | _ => false
  end.

(** The computation makes no call of the kind [p]. *)
Definition silent {E A : Type} (p : Call -> bool) (c : M E A) : Prop :=
  forall w, filter p (calls (world_of (c w))) = filter p (calls w).

(** * Properties *)

Open Scope list_scope.

Lemma writes_app (cs cs' : list Call) : writes (cs ++ cs') = writes cs ++ writes cs'.
Proof.
  induction cs as [| c cs IH]; simpl.
  - reflexivity.
  - destruct c; simpl; try assumption. now rewrite IH.
Qed.

Lemma opens_app (cs cs' : list Call) : opens (cs ++ cs') = opens cs ++ opens cs'.
Proof.
  induction cs as [| c cs IH]; simpl.
  - reflexivity.
  - destruct c; simpl; try assumption. now rewrite IH.
Qed.

Lemma ends_with_app (suffix stem : string) : ends_with suffix (stem ++ suffix)%string = true.
Proof.
  induction stem as [| c stem IH]; simpl.
  - destruct suffix; simpl.
    + reflexivity.
    + now rewrite Ascii.eqb_refl, String.eqb_refl.
  - rewrite IH. apply orb_true_r.
Qed.

Section Properties.

Context {E : Type} {EE : AceEditor E}.

(** [save] with a file open, step by step. *)
Lemma save_open (w : World E) (f : VFSFile) (e : E) :
  args_file w = Some f ->
  editor w = Some e ->
  save w =
    Done None {| editor := editor w; args_file := args_file w; state := state w;
                 promises := promises w ++ [save_promise f (getValue e)];
                 calls := calls w ++ [VfsWritefile f (getValue e)] |}.
Proof.
  intros Hf He. destruct w as [ed fl st ps cs]; simpl in *; subst.
  reflexivity.
Qed.

(** [save] with no file open returns at once. *)
Lemma save_closed (w : World E) :
  args_file w = None -> save w = Done None w.
Proof.
  intros Hf. destruct w as [ed fl st ps cs]; simpl in *; subst.
  reflexivity.
Qed.

(** C1. Whenever the save action runs while [proc.args.file] holds a file,
    it makes exactly one [vfs.writefile] call: the descriptor is that file and
    the payload is what the widget's [getValue()] returns at that moment.
    Nothing else of the world changes, and nothing is hung on the promise. *)
Theorem save_writes_buffer_to_open_file (w : World E) (f : VFSFile) (e : E) :
  args_file w = Some f ->
  editor w = Some e ->
  exists w',
    wire save w = Done None w' /\
    calls w' = calls w ++ [VfsWritefile f (getValue e)] /\
    writes (calls w') = writes (calls w) ++ [(f, getValue e)] /\
    promises w' = promises w ++ [save_promise f (getValue e)] /\
    editor w' = editor w /\ args_file w' = args_file w /\ state w' = state w.
Proof.
  intros Hf He. eexists. split.
  - unfold wire, bind. rewrite (save_open w f e Hf He). reflexivity.
  - simpl. rewrite writes_app. simpl. repeat split; reflexivity.
Qed.

(** C2. Whenever the save action runs while [proc.args.file] is unset, the
    world is left as it was: no call reaches the VFS (the trace and the
    pending promises are the same) and the state of the user interface
    (theme, mode, row, column, lines) is the same. *)
Theorem save_without_file_is_noop (w : World E) :
  args_file w = None ->
  exists w',
    wire save w = Done None w' /\
    w' = w /\
    writes (calls w') = writes (calls w) /\
    promises w' = promises w /\
    state w' = state w.
Proof.
  intros Hf. exists w. split.
  - unfold wire, bind. now rewrite (save_closed w Hf).
  - repeat split; reflexivity.
Qed.

(** *** Opening a file *)

Variable host : Host.

(** [load] on a mounted widget: the grammar is set, then the read is
    issued. *)
Lemma load_mounted (item : VFSFile) (w : World E) (e : E) :
  editor w = Some e ->
  load host item w =
    Done None
      {| editor := Some (session_setMode (Mode.mode (modelist_getModeForPath host (path item))) e);
         args_file := args_file w; state := state w;
         promises := promises w ++ [load_promise item];
         calls := calls w ++ [SessionSetMode (Mode.mode (modelist_getModeForPath host (path item)));
                              VfsReadfile item] |}.
Proof.
  intros He. destruct w as [ed fl st ps cs]; simpl in *; subst.
  unfold load, bind; simpl. now rewrite <- app_assoc.
Qed.

(** While [editor] is unset [load] throws at [editor.getSession()], before
    any read is issued. *)
Lemma load_unmounted (item : VFSFile) (w : World E) :
  editor w = None -> load host item w = Thrown (TypeError "editor is undefined") w.
Proof.
  intros He. destruct w as [ed fl st ps cs]; simpl in *; subst. reflexivity.
Qed.

Lemma nth_error_last {A} (l : list A) (x : A) : nth_error (l ++ [x]) (length l) = Some x.
Proof.
  induction l as [| y l IH]; simpl; [reflexivity | exact IH].
Qed.

Lemma remove_nth_last {A} (l : list A) (x : A) : remove_nth (length l) (l ++ [x]) = l.
Proof.
  induction l as [| y l IH]; simpl; [reflexivity | now rewrite IH].
Qed.

(** A read that fails: [.then(setText)] is skipped, [.catch] logs. *)
Lemma settle_read_rejected (item : VFSFile) (error : JsError) (k : nat) (w : World E) :
  nth_error (promises w) k = Some (load_promise item) ->
  settle k (Rejected error) w =
    Some (Fulfilled undefined,
          {| editor := editor w; args_file := args_file w; state := state w;
             promises := remove_nth k (promises w);
             calls := calls w ++ [ConsoleError error] |}).
Proof.
  intros Hk. unfold settle. rewrite Hk. reflexivity.
Qed.

(** A read that succeeds on a mounted widget: [setText] runs, [.catch] is
    skipped. *)
Lemma settle_read_fulfilled (item : VFSFile) (contents : string) (k : nat)
  (w : World E) (e : E) :
  nth_error (promises w) k = Some (load_promise item) ->
  editor w = Some e ->
  settle k (Fulfilled (text contents)) w =
    Some (Fulfilled (text contents),
          {| editor := Some (setValue contents e); args_file := args_file w; state := state w;
             promises := remove_nth k (promises w);
             calls := calls w ++ [EditorSetValue contents] |}).
Proof.
  intros Hk He. unfold settle. rewrite Hk. simpl.
  unfold setText, bind, the_editor; simpl. rewrite He. reflexivity.
Qed.

(** A write that settles: nothing is hung on the promise, so the settlement
    is the chain's. *)
Lemma settle_write (file : VFSFile) (data : string) (s : Settlement) (k : nat) (w : World E) :
  nth_error (promises w) k = Some (save_promise file data) ->
  settle k s w =
    Some (s, {| editor := editor w; args_file := args_file w; state := state w;
                promises := remove_nth k (promises w); calls := calls w |}).
Proof.
  intros Hk. unfold settle. rewrite Hk. reflexivity.
Qed.

(** The handler of [open-file] is the wired [load]. *)
Lemma on_open_file (item : VFSFile) (w : World E) (e : E) :
  editor w = Some e ->
  on_basic host (open_file item) w =
    Done tt
      {| editor := Some (session_setMode (Mode.mode (modelist_getModeForPath host (path item))) e);
         args_file := args_file w; state := state w;
         promises := promises w ++ [load_promise item];
         calls := calls w ++ [SessionSetMode (Mode.mode (modelist_getModeForPath host (path item)));
                              VfsReadfile item] |}.
Proof.
  intros He. unfold on_basic, wire, bind. now rewrite (load_mounted item w e He).
Qed.

(** C3. For an [open-file] event whose descriptor has a path ending in
    [.py], which the mode list detects as Python: the handler sets the grammar
    of the widget to [ace/mode/python] and issues the read of that descriptor;
    and whenever that read is fulfilled with a text, [setValue] is called on
    the widget with exactly that text. *)
Theorem open_py_sets_python_mode_and_fills_buffer
  (item : VFSFile) (stem : string) (w : World E) (e : E) :
  path item = (stem ++ ".py")%string ->
  Mode.mode (modelist_getModeForPath host (stem ++ ".py")%string) = "ace/mode/python"%string ->
  editor w = Some e ->
  exists w1,
    on_basic host (open_file item) w = Done tt w1 /\
    editor w1 = Some (session_setMode "ace/mode/python" e) /\
    calls w1 = calls w ++ [SessionSetMode "ace/mode/python"; VfsReadfile item] /\
    nth_error (promises w1) (length (promises w)) = Some (load_promise item) /\
    forall (w2 : World E) (e2 : E) (k : nat) (contents : string),
      editor w2 = Some e2 ->
      nth_error (promises w2) k = Some (load_promise item) ->
      exists w3,
        settle k (Fulfilled (text contents)) w2 = Some (Fulfilled (text contents), w3) /\
        calls w3 = calls w2 ++ [EditorSetValue contents] /\
        editor w3 = Some (setValue contents e2).
Proof.
  intros Hpath Hpy He.
  eexists. split; [apply (on_open_file item w e He) |].
  rewrite Hpath, Hpy. simpl.
  split; [reflexivity |]. split; [reflexivity |].
  split; [apply nth_error_last |].
  intros w2 e2 k contents He2 Hk.
  eexists.
  split; [apply (settle_read_fulfilled item contents k w2 e2 Hk He2) |].
  simpl. split; reflexivity.
Qed.


(** C7. The promise the save action gets from [vfs.writefile] carries no
    handler.  Whenever it is rejected no callback of the application runs:
    nothing is logged or called, widget and state are as before, and the
    rejection is the final settlement, handled by nobody. *)
Theorem write_failure_is_unhandled (w : World E) (f : VFSFile) (e : E) :
  args_file w = Some f ->
  editor w = Some e ->
  exists w1,
    wire save w = Done None w1 /\
    nth_error (promises w1) (length (promises w)) = Some (save_promise f (getValue e)) /\
    handlers (save_promise f (getValue e)) = [] /\
    forall (w2 : World E) (k : nat) (error : JsError),
      nth_error (promises w2) k = Some (save_promise f (getValue e)) ->
      exists w3,
        settle k (Rejected error) w2 = Some (Rejected error, w3) /\
        calls w3 = calls w2 /\
        editor w3 = editor w2 /\
        state w3 = state w2 /\
        args_file w3 = args_file w2.
Proof.
  intros Hf He. eexists. split.
  - unfold wire, bind. rewrite (save_open w f e Hf He). reflexivity.
  - simpl. split; [apply nth_error_last |]. split; [reflexivity |].
    intros w2 k error Hk. eexists.
    split; [apply (settle_write f (getValue e) (Rejected error) k w2 Hk) |].
    simpl. repeat split; reflexivity.
Qed.

(** C8. For every [open-file] event on a mounted widget the handler first
    sets the grammar detected from the path of the descriptor, then issues
    the read.  When the read is then rejected the widget is still the one
    with that grammar set: the failure leaves the buffer text as it was
    before the event, and does not take the grammar back. *)
Theorem load_sets_mode_before_read_and_failure_keeps_it
  (item : VFSFile) (w : World E) (e : E) (error : JsError) :
  editor w = Some e ->
  exists w1 w2,
    on_basic host (open_file item) w = Done tt w1 /\
    calls w1 = calls w ++ [SessionSetMode (Mode.mode (modelist_getModeForPath host (path item)));
                           VfsReadfile item] /\
    editor w1 = Some (session_setMode (Mode.mode (modelist_getModeForPath host (path item))) e) /\
    settle (length (promises w)) (Rejected error) w1 = Some (Fulfilled undefined, w2) /\
    editor w2 = Some (session_setMode (Mode.mode (modelist_getModeForPath host (path item))) e) /\
    option_map getValue (editor w2) = option_map getValue (editor w) /\
    promises w2 = promises w.
Proof.
  intros He. eexists. eexists.
  split; [apply (on_open_file item w e He) |].
  split; [reflexivity |]. split; [reflexivity |].
  split.
  - apply (settle_read_rejected item error). simpl. apply nth_error_last.
  - simpl. split; [reflexivity |]. split.
    + rewrite He. simpl. now rewrite getValue_setMode.
    + apply remove_nth_last.
Qed.

(** *** The file menu *)

(** The handler of [new-file] on a mounted widget. *)
Lemma on_new_file (w : World E) (e : E) :
  editor w = Some e ->
  on_basic host new_file w =
    Done tt {| editor := Some (setValue "" e); args_file := args_file w; state := state w;
               promises := promises w; calls := calls w ++ [EditorSetValue ""] |}.
Proof.
  intros He. destruct w as [ed fl st ps cs]; simpl in *; subst. reflexivity.
Qed.

(** C5. With a helper whose [createNew] emits the [new-file] event: whatever
    the widget holds, a click on the New entry of the file menu calls
    [basic.createNew()], and the listener of the event then calls [setValue]
    on the widget with the empty string. *)
Theorem menu_new_clears_buffer (w : World E) (e : E) (item : MenuItem) :
  (forall file, emitted (basic_createNew (basic host) file) = [new_file]) ->
  editor w = Some e ->
  In item (createFileMenu (args_file w) (translate host)) ->
  onclick item = click_menuNew ->
  exists w',
    click host item w = Done tt w' /\
    calls w' = calls w ++ [BasicCreateNew; EditorSetValue ""] /\
    editor w' = Some (setValue "" e).
Proof.
  intros Hnew He _ Hclick.
  exists {| editor := Some (setValue "" e);
            args_file := file_after (basic_createNew (basic host) (args_file w));
            state := state w; promises := promises w;
            calls := calls w ++ [BasicCreateNew; EditorSetValue ""] |}.
  split.
  - unfold click. rewrite Hclick.
    unfold wire, menuNew, react, bind, call, get_file, set_file; simpl.
    rewrite Hnew. simpl.
    unfold setText, bind, the_editor; simpl. rewrite He. simpl.
    now rewrite <- app_assoc.
  - simpl. split; reflexivity.
Qed.

(** C10. Every time the file menu is shown, the menu handed to the
    context-menu service has the five entries New, Open, Save, Save As and
    Quit, in this order; Save is disabled exactly when [proc.args.file] is
    unset, and no other entry is ever disabled. *)
Theorem file_menu_disables_only_save_without_file (target : Element) (w : World E) :
  exists w' menu,
    wire (fileMenu host target) w = Done None w' /\
    calls w' = calls w ++ [ContextmenuShow target menu] /\
    menu = createFileMenu (args_file w) (translate host) /\
    map onclick menu =
      [click_menuNew; click_menuOpen; click_menuSave; click_menuSaveAs; click_menuQuit] /\
    (forall item, In item menu ->
       (is_disabled item = true <-> onclick item = click_menuSave /\ args_file w = None)).
Proof.
  eexists. eexists. split; [reflexivity |].
  simpl. split; [reflexivity |]. split; [reflexivity |]. split; [reflexivity |].
  intros item Hin.
  destruct Hin as [<- | [<- | [<- | [<- | [<- | []]]]]]; unfold is_disabled; simpl;
    try (split; [discriminate | intros [Hc _]; discriminate Hc]).
  destruct (args_file w); simpl; split; try discriminate; auto.
  intros [_ Hn]; discriminate Hn.
Qed.

(** *** The status bar *)

(** C6. Every time the listener of [changeCursor] runs on a mounted widget,
    it reads the widget and updates the state in the same step: row and
    column are those of the cursor, lines is the length of the session, mode
    is the id of the session's mode, and the status bar of the new state shows
    exactly these values.  The widget itself is only read. *)
Theorem cursor_change_refreshes_status (w : World E) (e : E) :
  editor w = Some e ->
  exists w',
    on_changeCursor w = Done tt w' /\
    row (state w') = fst (selection_getCursor e) /\
    column (state w') = snd (selection_getCursor e) /\
    lines (state w') = session_getLength e /\
    mode (state w') = session_getMode_id e /\
    theme (state w') = theme (state w) /\
    statusbar (state w') =
      ("Row: " ++ show (fst (selection_getCursor e)) ++
       " Column: " ++ show (snd (selection_getCursor e)) ++
       " Lines: " ++ show (session_getLength e) ++
       " Mode: " ++ session_getMode_id e)%string /\
    editor w' = editor w /\
    calls w' = calls w.
Proof.
  intros He. destruct w as [ed fl st ps cs]; simpl in *; subst.
  unfold on_changeCursor, bind, the_editor; simpl.
  destruct (selection_getCursor e) as [r c]; simpl.
  eexists. split; [reflexivity |].
  simpl. repeat split; reflexivity.
Qed.

(** *** Listeners on a mounted widget *)

(** Once the widget is mounted no listener of the helper's events throws,
    the widget stays mounted, and no [basic.open] is called. *)
Lemma on_basic_mounted (ev : BasicEvent) (w : World E) :
  mounted w ->
  exists w', on_basic host ev w = Done tt w' /\ mounted w' /\ opens (calls w') = opens (calls w).
Proof.
  unfold mounted. intros Hm.
  destruct (editor w) as [e |] eqn:He; [clear Hm | contradiction].
  destruct ev as [| item | item].
  - eexists. split; [apply (on_new_file w e He) |]. simpl.
    split; [discriminate |]. rewrite opens_app. simpl. apply app_nil_r.
  - destruct (args_file w) as [f |] eqn:Hf.
    + eexists. split.
      * unfold on_basic, wire, bind. rewrite (save_open w f e Hf He). reflexivity.
      * simpl. split; [now rewrite He |]. rewrite opens_app. simpl. apply app_nil_r.
    + exists w. split.
      * unfold on_basic, wire, bind. now rewrite (save_closed w Hf).
      * split; [now rewrite He | reflexivity].
  - eexists. split; [apply (on_open_file item w e He) |]. simpl.
    split; [discriminate |]. rewrite opens_app. simpl. apply app_nil_r.
Qed.

Lemma emit_mounted (evs : list BasicEvent) (w : World E) :
  mounted w ->
  exists w', emit host evs w = Done tt w' /\ mounted w' /\ opens (calls w') = opens (calls w).
Proof.
  revert w. induction evs as [| ev evs IH]; intros w Hm; simpl.
  - exists w. repeat split. exact Hm.
  - destruct (on_basic_mounted ev w Hm) as (w1 & Hev & Hm1 & Ho1).
    destruct (IH w1 Hm1) as (w2 & Hevs & Hm2 & Ho2).
    exists w2. unfold bind. rewrite Hev. split; [exact Hevs |].
    split; [exact Hm2 | congruence].
Qed.

(** [basic.open(data)] on a mounted widget: one more [basic.open] in the
    trace, whatever the helper emits. *)
Lemma open_mounted (data : VFSFile) (w : World E) :
  mounted w ->
  exists w', open host data w = Done tt w' /\ mounted w' /\
             opens (calls w') = opens (calls w) ++ [data].
Proof.
  intros Hm. unfold open, react, bind, call, get_file, set_file; simpl.
  match goal with |- context [emit host ?evs ?w0] =>
    destruct (emit_mounted evs w0 Hm) as (w' & Hemit & Hm' & Ho) end.
  exists w'. rewrite Hemit. split; [reflexivity |]. split; [exact Hm' |].
  rewrite Ho. simpl. rewrite opens_app. reflexivity.
Qed.

(** *** Dropping a file *)

(** [find] returns the first pattern that matches; when every pattern
    compiles it returns nothing only if none matches. *)
Lemma find_mime_spec (regexp : string -> Result (string -> bool)) (mimes : list string) (s : string) :
  Forall (pattern_compiles regexp) mimes ->
  (exists m, find_mime regexp mimes s = Ok (Some m) /\ In m mimes /\ pattern_matches regexp m s) \/
  (find_mime regexp mimes s = Ok None /\ forall m, In m mimes -> ~ pattern_matches regexp m s).
Proof.
  induction 1 as [| m rest [re Hre] _ IH]; simpl.
  - right. split; [reflexivity | intros m []].
  - rewrite Hre. destruct (re s) eqn:Hs.
    + left. exists m. split; [reflexivity |]. split; [now left |]. now exists re.
    + destruct IH as [(m' & Hf & Hin & Hm') | (Hf & Hnone)].
      * left. exists m'. split; [exact Hf |]. split; [now right | exact Hm'].
      * right. split; [exact Hf |]. intros m' [<- | Hin].
        -- intros (re' & Hre' & Hs'). rewrite Hre in Hre'. injection Hre' as <-. congruence.
        -- now apply Hnone.
Qed.

(** X9. Where the drop listener does what it is meant to: on a mounted widget,
    with a MIME list whose patterns all compile and none of which is the empty
    string, the data is opened if it is [accepted], and the drop changes
    nothing otherwise. *)
Lemma on_drop_opens_iff_accepted (data : VFSFile) (w : World E) :
  mounted w ->
  Forall (pattern_compiles (RegExp host)) (metadata_mimes host) ->
  Forall (fun m => truthy m = true) (metadata_mimes host) ->
  exists w',
    on_drop host data w = Done tt w' /\
    (accepted host data -> opens (calls w') = opens (calls w) ++ [data]) /\
    (~ accepted host data -> w' = w).
Proof.
  intros Hm Hc Ht. unfold on_drop, accepted.
  destruct (isFile data); simpl;
    [| exists w; split; [reflexivity |]; split; [intros [Hf _]; discriminate Hf | reflexivity]].
  destruct (truthy_opt (mime data)); simpl;
    [| exists w; split; [reflexivity |]; split; [intros (_ & Hf & _); discriminate Hf | reflexivity]].
  unfold bind, lift.
  destruct (find_mime_spec (RegExp host) (metadata_mimes host) (ToString (mime data)) Hc)
    as [(m & Hf & Hin & Hmatch) | (Hf & Hnone)]; rewrite Hf; simpl.
  - rewrite Forall_forall in Ht. rewrite (Ht m Hin).
    destruct (open_mounted data w Hm) as (w' & Ho & _ & Hopens).
    exists w'. split; [exact Ho |]. split; [intros _; exact Hopens |].
    intros Hn. exfalso. apply Hn. repeat split. now exists m.
  - exists w. split; [reflexivity |]. split; [| reflexivity].
    intros (_ & _ & m & Hin & Hmatch). exfalso. exact (Hnone m Hin Hmatch).
Qed.

Lemma not_grown {A} (l : list A) (x : A) : l = l ++ [x] -> False.
Proof.
  intros Hl. apply (f_equal (@length A)) in Hl.
  rewrite length_app in Hl. simpl in Hl. lia.
Qed.

(** C9. For every drop on the window of a mounted widget, with the MIME
    list of the application's metadata a list of patterns that compile and
    none of which is the empty string: [basic.open] is called with the
    dropped data if and only if the data is a file, carries a non-empty MIME
    type, and that MIME type matches at least one pattern of the list;
    otherwise the drop changes nothing. *)
Theorem drop_is_opened_iff_file_with_matching_mime (data : VFSFile) (w : World E) :
  mounted w ->
  Forall (pattern_compiles (RegExp host)) (metadata_mimes host) ->
  Forall (fun m => truthy m = true) (metadata_mimes host) ->
  exists w',
    on_drop host data w = Done tt w' /\
    (opens (calls w') = opens (calls w) ++ [data] <->
     isFile data = true /\
     truthy_opt (mime data) = true /\
     exists m, In m (metadata_mimes host) /\
               pattern_matches (RegExp host) m (ToString (mime data))) /\
    (opens (calls w') <> opens (calls w) ++ [data] -> w' = w).
Proof.
  intros Hm Hc Ht. unfold on_drop.
  destruct (isFile data); simpl.
  2: { exists w. split; [reflexivity |]. split; [| reflexivity].
       split; [intros Ho; destruct (not_grown _ _ Ho) | intros [Hf _]; discriminate Hf]. }
  destruct (truthy_opt (mime data)); simpl.
  2: { exists w. split; [reflexivity |]. split; [| reflexivity].
       split; [intros Ho; destruct (not_grown _ _ Ho) | intros (_ & Hf & _); discriminate Hf]. }
  unfold bind, lift.
  destruct (find_mime_spec (RegExp host) (metadata_mimes host) (ToString (mime data)) Hc)
    as [(m & Hf & Hin & Hmatch) | (Hf & Hnone)]; rewrite Hf; simpl.
  - rewrite Forall_forall in Ht. rewrite (Ht m Hin).
    destruct (open_mounted data w Hm) as (w' & Ho & _ & Hopens).
    exists w'. split; [exact Ho |]. split.
    + split; [intros _ | intros _; exact Hopens].
      split; [reflexivity |]. split; [reflexivity |]. now exists m.
    + intros Hn. destruct (Hn Hopens).
  - exists w. split; [reflexivity |]. split; [| reflexivity].
    split; [intros Ho; destruct (not_grown _ _ Ho) |].
    intros (_ & _ & m & Hin & Hmatch). destruct (Hnone m Hin Hmatch).
Qed.

(** *** Mounting *)

(** [oncreate] never throws and leaves the widget mounted: every property
    above that asks for a mounted widget speaks of the worlds after it. *)
Lemma oncreate_mounts (el : Element) (w : World E) :
  exists w', oncreate host el w = Done tt w' /\ mounted w'.
Proof.
  unfold oncreate. destruct (editor w) as [e |] eqn:He.
  - exists w. split; [reflexivity |]. unfold mounted. now rewrite He.
  - unfold react, bind, call, get_state, get_file, set_editor, set_file; simpl.
    match goal with |- context [emit host ?evs ?w0] =>
      destruct (emit_mounted evs w0) as (w' & Hemit & Hm' & _) end.
    + unfold mounted; simpl. discriminate.
    + exists w'. rewrite Hemit. now split.
Qed.

(** Nothing the application does unsets [editor]: each primitive of the
    monad keeps the widget mounted, and so does every listener built from
    them. *)
Lemma keeps_ret {A} (a : A) : keeps (E := E) (ret a).
Proof. intros w Hm. exact Hm. Qed.

Lemma keeps_bind {A B} (c : M E A) (k : A -> M E B) :
  keeps c -> (forall a, keeps (k a)) -> keeps (bind c k).
Proof.
  intros Hc Hk w Hm. unfold bind. specialize (Hc w Hm).
  destruct (c w) as [a w' | e w']; simpl in Hc.
  - apply Hk, Hc.
  - exact Hc.
Qed.

Lemma keeps_throw {A} (e : JsError) : keeps (E := E) (A := A) (throw e).
Proof. intros w Hm. exact Hm. Qed.

Lemma keeps_lift {A} (r : Result A) : keeps (E := E) (lift r).
Proof. intros w Hm. unfold lift. now destruct r. Qed.

Lemma keeps_call (c : Call) : keeps (E := E) (call c).
Proof. intros w Hm. exact Hm. Qed.

Lemma keeps_vfs (r : Request) (hs : list Link) : keeps (E := E) (vfs r hs).
Proof. intros w Hm. exact Hm. Qed.

Lemma keeps_the_editor : keeps (E := E) the_editor.
Proof. intros w Hm. unfold the_editor. now destruct (editor w). Qed.

Lemma keeps_set_editor (e : E) : keeps (set_editor e).
Proof. intros w _. unfold mounted. simpl. discriminate. Qed.

Lemma keeps_get_file : keeps (E := E) get_file.
Proof. intros w Hm. exact Hm. Qed.

Lemma keeps_set_file (f : option VFSFile) : keeps (E := E) (set_file f).
Proof. intros w Hm. exact Hm. Qed.

Lemma keeps_get_state : keeps (E := E) get_state.
Proof. intros w Hm. exact Hm. Qed.

Lemma keeps_set_state (s : State) : keeps (E := E) (set_state s).
Proof. intros w Hm. exact Hm. Qed.

Create HintDb keeps.

#[local] Hint Resolve keeps_ret keeps_throw keeps_lift keeps_call keeps_vfs keeps_the_editor
  keeps_set_editor keeps_get_file keeps_set_file keeps_get_state keeps_set_state : keeps.

(** One step through a computation: a bind, a branch, or a primitive. *)
Ltac keeps_step :=
  match goal with
  | |- keeps (bind _ _) => apply keeps_bind; [| intros ?]
  | |- keeps (match ?x with _ => _ end) => destruct x
  | |- keeps _ => solve [auto with keeps]
  end.

Lemma keeps_wire (body : M E (option Partial)) : keeps body -> keeps (wire body).
Proof. intros Hb. unfold wire. repeat keeps_step. Qed.

Lemma keeps_setText (contents : string) : keeps (E := E) (setText contents).
Proof. unfold setText. repeat keeps_step. Qed.

Lemma keeps_save : keeps (E := E) save.
Proof. unfold save, getText. repeat keeps_step. Qed.

Lemma keeps_load (item : VFSFile) : keeps (load host item).
Proof. unfold load. repeat keeps_step. Qed.

#[local] Hint Resolve keeps_wire keeps_setText keeps_save keeps_load : keeps.

Lemma keeps_on_basic (ev : BasicEvent) : keeps (on_basic host ev).
Proof. unfold on_basic. repeat keeps_step. Qed.

Lemma keeps_emit (evs : list BasicEvent) : keeps (emit host evs).
Proof.
  induction evs as [| ev evs IH]; simpl.
  - apply keeps_ret.
  - apply keeps_bind; [apply keeps_on_basic | intros _; exact IH].
Qed.

#[local] Hint Resolve keeps_on_basic keeps_emit : keeps.

Lemma keeps_react (r : Reaction) : keeps (react host r).
Proof. unfold react. repeat keeps_step. Qed.

#[local] Hint Resolve keeps_react : keeps.

Lemma keeps_click (item : MenuItem) : keeps (click host item).
Proof.
  unfold click, menuNew, menuOpen, menuSave, menuSaveAs, menuQuit, setTheme.
  destruct (onclick item); repeat keeps_step; apply keeps_wire; repeat keeps_step.
Qed.

Lemma keeps_on_drop (data : VFSFile) : keeps (on_drop host data).
Proof. unfold on_drop, open. repeat keeps_step. Qed.

Lemma keeps_oncreate (el : Element) : keeps (oncreate host el).
Proof.
  intros w Hm. unfold oncreate. unfold mounted in Hm.
  destruct (editor w) eqn:He; [| contradiction]. simpl. unfold mounted. now rewrite He.
Qed.

Lemma keeps_on_fulfilled (f : OnFulfilled) (v : JsValue) : keeps (E := E) (on_fulfilled f v).
Proof. destruct f, v; simpl; auto with keeps. Qed.

Lemma keeps_on_rejected (f : OnRejected) (e : JsError) : keeps (E := E) (on_rejected f e).
Proof. destruct f. unfold on_rejected. repeat keeps_step. Qed.

Lemma run_link_mounted (l : Link) (s : Settlement) (w : World E) :
  mounted w -> mounted (snd (run_link l s w)).
Proof.
  intros Hm. destruct l as [f | f], s as [v | e]; try exact Hm; unfold run_link.
  - pose proof (keeps_on_fulfilled f v w Hm) as Hk.
    destruct (on_fulfilled f v w); exact Hk.
  - pose proof (keeps_on_rejected f e w Hm) as Hk.
    destruct (on_rejected f e w); exact Hk.
Qed.

Lemma run_chain_mounted (ls : list Link) (s : Settlement) (w : World E) :
  mounted w -> mounted (snd (run_chain ls s w)).
Proof.
  revert s w. induction ls as [| l ls IH]; intros s w Hm; simpl.
  - exact Hm.
  - pose proof (run_link_mounted l s w Hm) as Hl.
    destruct (run_link l s w) as [s' w']. apply IH, Hl.
Qed.

(** Every turn of the event loop keeps the widget mounted, whether its
    listener returns or throws. *)
Lemma step_mounted (i : Input) : keeps (step host i).
Proof.
  destruct i; simpl;
    try solve [unfold fileMenu, on_changeCursor, on_resized, on_blur, on_focus,
                 on_proc_destroy, setStatus; repeat keeps_step;
               try apply keeps_wire; repeat keeps_step].
  - apply keeps_oncreate.
  - apply keeps_click.
  - intros w Hm. unfold changeCursor. destruct (editor w); [| exact Hm].
    revert w Hm. change (keeps (E := E) on_changeCursor).
    unfold on_changeCursor, setStatus. repeat keeps_step.
  - apply keeps_on_drop.
  - intros w Hm. unfold settle.
    destruct (nth_error (promises w) k) as [p |]; simpl; [| exact Hm].
    match goal with |- context [run_chain ?ls ?s0 ?w0] =>
      pose proof (run_chain_mounted ls s0 w0 Hm) as Hr;
      destruct (run_chain ls s0 w0) as [s' w'] end.
    exact Hr.
Qed.

Lemma run_mounted (inputs : list Input) (w : World E) :
  mounted w -> mounted (run host inputs w).
Proof.
  revert w. induction inputs as [| i inputs IH]; intros w Hm; simpl.
  - exact Hm.
  - pose proof (step_mounted i w Hm) as Hs.
    destruct (step host i w); simpl in Hs; apply IH, Hs.
Qed.

(** X1. From the world [createApplication] leaves, once the editor container
    is created the widget is mounted for good, whatever inputs follow and
    whether their listeners return or throw. *)
Lemma mounted_after_mount (file : option VFSFile) (el : Element) (inputs : list Input) :
  mounted (run host (Mount el :: inputs) (initial_world file)).
Proof.
  simpl. destruct (oncreate_mounts el (initial_world file)) as (w' & Hc & Hm).
  rewrite Hc. apply run_mounted, Hm.
Qed.

End Properties.

(** * The properties on the reference widget and host *)

Lemma ref_modelist_detects_py (mimes : list string) (stem : string) :
  Mode.mode (modelist_getModeForPath (ref_host mimes) (stem ++ ".py")%string) = "ace/mode/python"%string.
Proof.
  simpl. unfold ref_getModeForPath. now rewrite ends_with_app.
Qed.

(** C1 on a widget holding two lines, [main.py] open. *)
Lemma save_writes_buffer_to_open_file_witness :
  exists w',
    wire save (world_with (Some main_py) two_lines) = Done None w' /\
    calls w' = [VfsWritefile main_py (buffer_value two_lines)] /\
    writes (calls w') = [(main_py, buffer_value two_lines)] /\
    promises w' = [save_promise main_py (buffer_value two_lines)] /\
    editor w' = Some two_lines /\ args_file w' = Some main_py /\ state w' = initial_state.
Proof.
  exact (save_writes_buffer_to_open_file
           (world_with (Some main_py) two_lines) main_py two_lines eq_refl eq_refl).
Defined.

(** C2 on the same widget with no file open. *)
Lemma save_without_file_is_noop_witness :
  exists w',
    wire save (world_with None two_lines) = Done None w' /\
    w' = world_with None two_lines /\
    writes (calls w') = [] /\
    promises w' = [] /\
    state w' = initial_state.
Proof.
  exact (save_without_file_is_noop (world_with None two_lines) eq_refl).
Defined.

(** C3 on [home:/main.py], the read fulfilled right after the event. *)
Lemma open_py_sets_python_mode_and_fills_buffer_witness :
  exists w1 w3,
    on_basic (ref_host []) (open_file main_py) (world_with None (buffer_edit 0%N)) = Done tt w1 /\
    editor w1 = Some (buffer_setMode "ace/mode/python" (buffer_edit 0%N)) /\
    settle 0 (Fulfilled (text "x = 1")) w1 = Some (Fulfilled (text "x = 1"), w3) /\
    option_map buffer_value (editor w3) = Some "x = 1"%string.
Proof.
  destruct (open_py_sets_python_mode_and_fills_buffer (ref_host []) main_py "home:/main"
              (world_with None (buffer_edit 0%N)) (buffer_edit 0%N)
              eq_refl eq_refl eq_refl)
    as (w1 & Hev & He1 & _ & Hk & Hread).
  destruct (Hread w1 _ 0%nat "x = 1"%string He1 Hk) as (w3 & Hs & _ & He3).
  exists w1, w3. repeat split; try assumption.
  rewrite He3. reflexivity.
Defined.


(** C5 on a widget holding two lines. *)
Lemma menu_new_clears_buffer_witness :
  exists w',
    click (ref_host [])
      {| label := "LBL_NEW"; disabled := None; onclick := click_menuNew |}
      (world_with (Some main_py) two_lines) = Done tt w' /\
    calls w' = [BasicCreateNew; EditorSetValue ""] /\
    editor w' = Some (buffer_setValue "" two_lines).
Proof.
  exact (menu_new_clears_buffer (ref_host []) (world_with (Some main_py) two_lines) two_lines
           {| label := "LBL_NEW"; disabled := None; onclick := click_menuNew |}
           (fun _ => eq_refl) eq_refl (or_introl eq_refl) eq_refl).
Defined.

(** C6 on a widget holding two lines, the cursor at row 1, column 5. *)
Lemma cursor_change_refreshes_status_witness :
  exists w',
    on_changeCursor (world_with None two_lines) = Done tt w' /\
    row (state w') = 1%N /\
    column (state w') = 5%N /\
    lines (state w') = 2%N /\
    mode (state w') = "ace/mode/python"%string /\
    theme (state w') = "ace/theme/monokai"%string /\
    statusbar (state w') = "Row: 1 Column: 5 Lines: 2 Mode: ace/mode/python"%string /\
    editor w' = Some two_lines /\
    calls w' = [].
Proof.
  exact (cursor_change_refreshes_status (world_with None two_lines) two_lines eq_refl).
Defined.

(** C7 on a widget holding two lines, [main.py] open, the write rejected
    right after the save. *)
Lemma write_failure_is_unhandled_witness :
  exists w1 w3,
    wire save (world_with (Some main_py) two_lines) = Done None w1 /\
    settle 0 (Rejected (Error "EACCES")) w1 = Some (Rejected (Error "EACCES"), w3) /\
    calls w3 = calls w1 /\ editor w3 = editor w1 /\ state w3 = state w1.
Proof.
  destruct (write_failure_is_unhandled (world_with (Some main_py) two_lines) main_py two_lines
              eq_refl eq_refl) as (w1 & Hsave & Hk & _ & Hfail).
  destruct (Hfail w1 0%nat (Error "EACCES") Hk) as (w3 & Hs & Hc & He & Hst & _).
  exists w1, w3. repeat split; assumption.
Defined.

(** C8 on [home:/main.py] opened over two lines of text in the text
    grammar. *)
Lemma load_sets_mode_before_read_and_failure_keeps_it_witness :
  let b := buffer_setMode "ace/mode/text" two_lines in
  exists w1 w2,
    on_basic (ref_host []) (open_file main_py) (world_with None b) = Done tt w1 /\
    calls w1 = [SessionSetMode "ace/mode/python"; VfsReadfile main_py] /\
    editor w1 = Some (buffer_setMode "ace/mode/python" b) /\
    settle 0 (Rejected (Error "ENOENT")) w1 = Some (Fulfilled undefined, w2) /\
    editor w2 = Some (buffer_setMode "ace/mode/python" b) /\
    option_map getValue (editor w2) = Some (buffer_value two_lines) /\
    promises w2 = [].
Proof.
  exact (load_sets_mode_before_read_and_failure_keeps_it (ref_host []) main_py
           (world_with None (buffer_setMode "ace/mode/text" two_lines))
           (buffer_setMode "ace/mode/text" two_lines) (Error "ENOENT") eq_refl).
Defined.

(** A drop the listener handles as meant: the MIME type of a text file
    matches the first pattern, the data goes to [basic.open], which opens
    it. *)
Example drop_text_file_is_opened :
  world_of (on_drop (ref_host ["^text"; "application\/json"]%string) notes_txt
              (world_with None two_lines))
  = {| editor := Some (buffer_setMode "ace/mode/text" two_lines);
       args_file := Some notes_txt; state := initial_state;
       promises := [load_promise notes_txt];
       calls := [BasicOpen notes_txt; SessionSetMode "ace/mode/text"; VfsReadfile notes_txt] |}.
Proof. reflexivity. Qed.

(** A session from the world [createApplication] leaves: the container is
    created, a text file is dropped and read, the user saves, the write fails,
    the cursor moves. *)
Example a_session :
  run (ref_host ["^text"; "application\/json"]%string)
    [Mount 1%N; WinDrop notes_txt; Settled 0 (Fulfilled (text "hello"));
     MenuClick {| label := "LBL_SAVE"; disabled := Some false; onclick := click_menuSave |};
     Settled 0 (Rejected (Error "EACCES")); CursorChange]
    (initial_world None)
  = {| editor := Some {| buffer_value := "hello"; buffer_theme := "ace/theme/monokai";
                         buffer_mode := "ace/mode/text"; buffer_cursor := (0%N, 5%N) |};
       args_file := Some notes_txt;
       state := {| theme := "ace/theme/monokai"; mode := "ace/mode/text";
                   row := 0; column := 5; lines := 1 |};
       promises := [];
       calls := [AceEdit 1%N; EditorSetTheme "ace/theme/monokai"; SelectionOnChangeCursor;
                 BasicInit; EditorSetValue ""; BasicOpen notes_txt;
                 SessionSetMode "ace/mode/text"; VfsReadfile notes_txt;
                 EditorSetValue "hello"; VfsWritefile notes_txt "hello"] |}.
Proof. reflexivity. Qed.

(** Why the patterns are asked to be non-empty.  Were the empty pattern in
    the MIME list, it would match every string; [find] would return the
    pattern itself, the empty string, [if (found)] would take it for false
    and [basic.open] would not be called. *)
Theorem drop_matching_empty_pattern_is_not_opened :
  accepted (ref_host [""%string]) notes_txt /\
  find_mime literal_RegExp [""%string] "text/plain" = Ok (Some ""%string) /\
  on_drop (ref_host [""%string]) notes_txt (world_with None two_lines)
    = Done tt (world_with None two_lines) /\
  opens (calls (world_with None two_lines)) = [].
Proof.
  split.
  - unfold accepted. simpl. repeat split.
    exists ""%string. split; [now left |].
    exists (occurs ""). split; reflexivity.
  - repeat split; reflexivity.
Qed.

(** * Further properties of the listeners *)

(** ** Calls a listener does not make *)

Section Silent.

Context {E : Type} {EE : AceEditor E}.
Variable p : Call -> bool.

Lemma silent_ret {A} (a : A) : silent (E := E) p (ret a).
Proof. intros w. reflexivity. Qed.

Lemma silent_bind {A B} (c : M E A) (k : A -> M E B) :
  silent p c -> (forall a, silent p (k a)) -> silent p (bind c k).
Proof.
  intros Hc Hk w. unfold bind. specialize (Hc w).
  destruct (c w) as [a w' | e w']; simpl in Hc.
  - now rewrite Hk.
  - exact Hc.
Qed.

Lemma silent_throw {A} (e : JsError) : silent (E := E) (A := A) p (throw e).
Proof. intros w. reflexivity. Qed.

Lemma silent_lift {A} (r : Result A) : silent (E := E) p (lift r).
Proof. intros w. unfold lift. now destruct r. Qed.

Lemma silent_call (c : Call) : p c = false -> silent (E := E) p (call c).
Proof.
  intros Hc w. simpl. rewrite filter_app. simpl. rewrite Hc. apply app_nil_r.
Qed.

Lemma silent_vfs (r : Request) (hs : list Link) :
  p (match r with
     | readfile item => VfsReadfile item
     | writefile file data => VfsWritefile file data
     end) = false ->
  silent (E := E) p (vfs r hs).
Proof.
  intros Hc w. simpl. rewrite filter_app. simpl. rewrite Hc. apply app_nil_r.
Qed.

Lemma silent_the_editor : silent (E := E) p the_editor.
Proof. intros w. unfold the_editor. now destruct (editor w). Qed.

Lemma silent_set_editor (e : E) : silent p (set_editor e).
Proof. intros w. reflexivity. Qed.

Lemma silent_get_file : silent (E := E) p get_file.
Proof. intros w. reflexivity. Qed.

Lemma silent_set_file (f : option VFSFile) : silent (E := E) p (set_file f).
Proof. intros w. reflexivity. Qed.

Lemma silent_get_state : silent (E := E) p get_state.
Proof. intros w. reflexivity. Qed.

Lemma silent_set_state (s : State) : silent (E := E) p (set_state s).
Proof. intros w. reflexivity. Qed.

End Silent.

Create HintDb silent.

#[local] Hint Resolve silent_ret silent_throw silent_lift silent_the_editor silent_set_editor
  silent_get_file silent_set_file silent_get_state silent_set_state : silent.

(** One step through a computation; a call is accepted when [p] computes
    to [false] on it. *)
Ltac silent_step :=
  match goal with
  | |- silent _ (bind _ _) => apply silent_bind; [| intros ?]
  | |- silent _ (match ?x with _ => _ end) => destruct x
  | |- silent _ (call _) => apply silent_call; reflexivity
  | |- silent _ (vfs _ _) => apply silent_vfs; reflexivity
  | |- silent _ _ => solve [auto with silent]
  end.

Ltac silent_listener :=
  unfold on_basic, click, menuNew, menuOpen, menuSave, menuSaveAs, menuQuit, setTheme,
    fileMenu, on_changeCursor, on_resized, on_blur, on_focus, on_proc_destroy, setStatus,
    on_drop, open, react, wire, load, save, getText, setText, on_fulfilled, on_rejected;
  repeat silent_step.

Lemma filter_app_nil {A} (q : A -> bool) (l l' : list A) :
  filter q l' = [] -> filter q (l ++ l') = filter q l.
Proof.
  intros Hl. rewrite filter_app, Hl. apply app_nil_r.
Qed.

Lemma writes_filter (cs : list Call) : writes cs = writes (filter is_write cs).
Proof.
  induction cs as [| c cs IH]; simpl; [reflexivity |].
  destruct c; simpl; try exact IH. now rewrite IH.
Qed.

Section Listeners.

Context {E : Type} {EE : AceEditor E}.
Variable host : Host.

(** *** The widget is created once *)

Lemma emit_not_mounting (evs : list BasicEvent) : silent (E := E) is_mounting (emit host evs).
Proof.
  induction evs as [| ev evs IH]; simpl.
  - apply silent_ret.
  - apply silent_bind; [destruct ev; silent_listener | intros _; exact IH].
Qed.

#[local] Hint Resolve emit_not_mounting : silent.

Lemma run_chain_silent (q : Call -> bool) (ls : list Link) (s : Settlement) (w : World E) :
  q (EditorSetValue "") = false ->
  (forall contents, q (EditorSetValue contents) = q (EditorSetValue "")) ->
  (forall error, q (ConsoleError error) = false) ->
  filter q (calls (snd (run_chain ls s w))) = filter q (calls w).
Proof.
  intros Hset Hsets Herr. revert s w.
  induction ls as [| l ls IH]; intros s w; simpl; [reflexivity |].
  assert (Hl : filter q (calls (snd (run_link l s w))) = filter q (calls w)).
  { destruct l as [[] | []], s as [[| contents] | e]; simpl; try reflexivity.
    - unfold setText, bind, the_editor, set_editor, call, ret. destruct (editor w); simpl.
      + apply filter_app_nil. simpl. now rewrite Hsets, Hset.
      + reflexivity.
    - apply filter_app_nil. simpl. now rewrite Herr. }
  destruct (run_link l s w) as [s' w']. simpl in Hl. now rewrite IH.
Qed.

Lemma settle_silent (q : Call -> bool) (k : nat) (s : Settlement) (w : World E) :
  q (EditorSetValue "") = false ->
  (forall contents, q (EditorSetValue contents) = q (EditorSetValue "")) ->
  (forall error, q (ConsoleError error) = false) ->
  filter q (calls (world_of (step host (Settled k s) w))) = filter q (calls w).
Proof.
  intros Hset Hsets Herr. simpl. unfold settle.
  destruct (nth_error (promises w) k) as [pr |]; [| reflexivity].
  match goal with |- context [run_chain ?ls ?s0 ?w0] =>
    pose proof (run_chain_silent q ls s0 w0 Hset Hsets Herr) as Hr;
    destruct (run_chain ls s0 w0) as [s' w'] end.
  exact Hr.
Qed.

(** No listener but [oncreate] creates a widget, registers the cursor
    listener or calls [basic.init]. *)
Lemma step_not_mounting (i : Input) (w : World E) :
  (forall el, i <> Mount el) ->
  filter is_mounting (calls (world_of (step host i w))) = filter is_mounting (calls w).
Proof.
  intros Hi. destruct i; try (now apply settle_silent);
    try (exfalso; eapply Hi; reflexivity);
    try (simpl; unfold changeCursor; destruct (editor w); [| reflexivity]);
    revert w;
    match goal with |- forall w, filter _ (calls (world_of (?c w))) = _ =>
      change (silent is_mounting c) end;
    simpl; silent_listener.
Qed.

(** X3. Whatever inputs arrive, in whatever order, after
    [createApplication] has returned, the widget is created at most once: the
    trace holds no creation call at all, or exactly one [ace.edit], one
    registration of the cursor listener and one [basic.init], in this order,
    and the widget is mounted. *)
Theorem widget_is_created_at_most_once (file : option VFSFile) (inputs : list Input) :
  let w := run host inputs (initial_world (E := E) file) in
  filter is_mounting (calls w) = [] \/
  (mounted w /\
   exists el, filter is_mounting (calls w) = [AceEdit el; SelectionOnChangeCursor; BasicInit]).
Proof.
  cbv zeta.
  assert (Hrun : forall (ins : list Input) (w : World E),
             (filter is_mounting (calls w) = [] \/
              (mounted w /\ exists el, filter is_mounting (calls w)
                                        = [AceEdit el; SelectionOnChangeCursor; BasicInit])) ->
             filter is_mounting (calls (run host ins w)) = [] \/
             (mounted (run host ins w) /\
              exists el, filter is_mounting (calls (run host ins w))
                         = [AceEdit el; SelectionOnChangeCursor; BasicInit])).
  { induction ins as [| i ins IH]; intros w Hw; simpl; [exact Hw |].
    assert (Hstep : filter is_mounting (calls (world_of (step host i w))) = [] \/
                    (mounted (world_of (step host i w)) /\
                     exists el, filter is_mounting (calls (world_of (step host i w)))
                                = [AceEdit el; SelectionOnChangeCursor; BasicInit])).
    { destruct i as [el | | | | | | | | | |];
        try (rewrite step_not_mounting by discriminate;
             destruct Hw as [Hw | [Hm Hw]];
             [left; exact Hw | right; split; [apply step_mounted, Hm | exact Hw]]).
      simpl. unfold oncreate. destruct (editor w) as [e |] eqn:He.
      - exact Hw.
      - destruct Hw as [Hw | [Hm _]]; [| unfold mounted in Hm; congruence].
        right. split.
        + destruct (oncreate_mounts host el w) as (w' & Hc & Hm').
          unfold oncreate in Hc. rewrite He in Hc. rewrite Hc. exact Hm'.
        + exists el. unfold bind, call, get_state, set_editor, get_file; simpl.
          unfold react, bind, set_file; simpl.
          rewrite emit_not_mounting. simpl.
          repeat rewrite filter_app. simpl. rewrite Hw. reflexivity. }
    destruct (step host i w) as [[] w' | e w']; simpl in Hstep; apply IH, Hstep. }
  apply Hrun. left. reflexivity.
Qed.

(** *** Only saving writes *)

Lemma emit_no_write (evs : list BasicEvent) :
  existsb is_save_file evs = false -> silent (E := E) is_write (emit host evs).
Proof.
  induction evs as [| ev evs IH]; simpl; intros Hevs.
  - apply silent_ret.
  - apply orb_false_iff in Hevs. destruct Hevs as [Hev Hevs].
    apply silent_bind; [| intros _; exact (IH Hevs)].
    destruct ev; [| discriminate Hev |]; silent_listener.
Qed.

(** X4. The application writes to the VFS only through the save action: a
    turn of the event loop that is neither a click on Save nor a run of the
    helper that emits [save-file] leaves the [vfs.writefile] calls of the trace
    as they were, whether its listener returns or throws. *)
Theorem only_saving_writes (i : Input) (w : World E) :
  may_write host (args_file w) i = false ->
  writes (calls (world_of (step host i w))) = writes (calls w).
Proof.
  intros Hi.
  rewrite (writes_filter (calls (world_of (step host i w)))), (writes_filter (calls w)).
  f_equal.
  destruct i as [el | target | item | | | | | data | | r | k s]; simpl in Hi;
    try solve [clear Hi; simpl; unfold changeCursor; destruct (editor w); [| reflexivity];
               revert w;
               match goal with |- forall w, filter _ (calls (world_of (?c w))) = _ =>
                 change (silent is_write c) end;
               silent_listener];
    try solve [clear Hi; revert w;
               match goal with |- forall w, filter _ (calls (world_of (?c w))) = _ =>
                 change (silent is_write c) end;
               simpl; silent_listener].
  - simpl. unfold oncreate. destruct (editor w) as [e |]; [reflexivity |].
    unfold bind, call, get_state, set_editor, get_file; simpl.
    unfold react, bind, set_file; simpl.
    rewrite (emit_no_write _ Hi). simpl.
    repeat (rewrite filter_app_nil by reflexivity). reflexivity.
  - simpl. unfold click. destruct (onclick item) eqn:Hclick; try discriminate Hi;
      try solve [clear Hi; revert w;
                 match goal with |- forall w, filter _ (calls (world_of (?c w))) = _ =>
                   change (silent is_write c) end;
                 silent_listener].
    unfold wire, menuNew, bind, call, get_file; simpl.
    unfold react, bind, set_file; simpl.
    match goal with |- context [emit host ?evs ?w0] =>
      pose proof (emit_no_write evs Hi w0) as Hemit;
      destruct (emit host evs w0) as [[] w' | e w'] end;
      simpl in *; rewrite Hemit; apply filter_app_nil; reflexivity.
  - simpl. unfold on_drop.
    destruct (isFile data && truthy_opt (mime data)); [| reflexivity].
    unfold bind, lift.
    destruct (find_mime (RegExp host) (metadata_mimes host) (ToString (mime data)))
      as [found | e]; [| reflexivity].
    destruct (truthy_opt found); [| reflexivity].
    unfold open, bind, call, get_file; simpl.
    unfold react, bind, set_file; simpl.
    rewrite (emit_no_write _ Hi). simpl. apply filter_app_nil. reflexivity.
  - simpl. unfold react, bind, set_file; simpl.
    now rewrite (emit_no_write _ Hi).
  - now apply settle_silent.
Qed.

(** *** Creating the editor container *)

(** X2. [oncreate] never throws, whatever the helper emits while
    [basic.init] runs, and leaves the widget mounted.  On a world with no
    widget yet it makes the three creation calls once, in order; on a world
    that has one it does nothing. *)
Theorem oncreate_creates_the_widget_once (el : Element) (w : World E) :
  exists w',
    oncreate host el w = Done tt w' /\
    mounted w' /\
    match editor w with
    | Some _ => w' = w
    | None =>
        filter is_mounting (calls w') =
        filter is_mounting (calls w) ++ [AceEdit el; SelectionOnChangeCursor; BasicInit]
    end.
Proof.
  destruct (oncreate_mounts host el w) as (w' & Hc & Hm).
  exists w'. split; [exact Hc |]. split; [exact Hm |].
  assert (Hw' : w' = world_of (oncreate host el w)) by now rewrite Hc.
  unfold oncreate in Hw'. destruct (editor w) as [e |]; [exact Hw' |].
  rewrite Hw'. unfold bind, call, get_state, set_editor, get_file; simpl.
  unfold react, bind, set_file; simpl.
  rewrite emit_not_mounting. simpl.
  repeat rewrite filter_app. simpl. now rewrite app_nil_r, <- !app_assoc.
Qed.

(** *** The theme menu and the mode menu *)

(** X5. The theme menu lists the themes of the theme list, one entry each,
    labelled by caption, none disabled; a click on the entry of a theme, on a
    mounted widget, calls [editor.setTheme] with the name of that theme and
    stores the name in the state, leaving row, column, lines and mode as they
    were. *)
Theorem theme_menu_entry_sets_its_theme (target : Element) (t : Theme.t) (w : World E) :
  In t (themelist_themes host) ->
  exists w1 menu item,
    wire (themeMenu host target) w = Done None w1 /\
    calls w1 = calls w ++ [ContextmenuShow target menu] /\
    map label menu = map Theme.caption (themelist_themes host) /\
    (forall item', In item' menu -> is_disabled item' = false) /\
    In item menu /\
    label item = Theme.caption t /\
    forall (w2 : World E) (e2 : E),
      editor w2 = Some e2 ->
      exists w3,
        click host item w2 = Done tt w3 /\
        editor w3 = Some (editor_setTheme (Theme.name t) e2) /\
        calls w3 = calls w2 ++ [EditorSetTheme (Theme.name t)] /\
        state w3 = {| theme := Theme.name t; mode := mode (state w2); row := row (state w2);
                      column := column (state w2); lines := lines (state w2) |} /\
        args_file w3 = args_file w2 /\
        promises w3 = promises w2.
Proof.
  intros Ht.
  exists {| editor := editor w; args_file := args_file w; state := state w;
            promises := promises w;
            calls := calls w ++ [ContextmenuShow target (createThemeMenu (themelist_themes host))] |}.
  exists (createThemeMenu (themelist_themes host)).
  exists {| label := Theme.caption t; disabled := None; onclick := click_setTheme (Theme.name t) |}.
  split; [reflexivity |]. split; [reflexivity |].
  split; [unfold createThemeMenu; rewrite map_map; reflexivity |].
  split.
  { intros item' Hin. unfold createThemeMenu in Hin. apply in_map_iff in Hin.
    destruct Hin as (t' & <- & _). reflexivity. }
  split.
  { unfold createThemeMenu. apply in_map_iff. exists t. now split. }
  split; [reflexivity |].
  intros w2 e2 He2. destruct w2 as [ed fl st ps cs]; simpl in *; subst.
  eexists. split; [reflexivity |]. simpl. repeat split; reflexivity.
Qed.

(** X6. The mode menu lists the modes of the mode list by caption, and each
    of its entries calls [actions.setMode], which the action table does not
    define: a click on any entry throws a TypeError and changes nothing. *)
Theorem mode_menu_entries_throw (target : Element) (w : World E) :
  exists w1 menu,
    wire (modeMenu host target) w = Done None w1 /\
    calls w1 = calls w ++ [ContextmenuShow target menu] /\
    map label menu = map Mode.caption (modelist_modes host) /\
    forall (item : MenuItem) (w2 : World E),
      In item menu ->
      click host item w2 = Thrown (TypeError "actions.setMode is not a function") w2.
Proof.
  exists {| editor := editor w; args_file := args_file w; state := state w;
            promises := promises w;
            calls := calls w ++ [ContextmenuShow target (createModeMenu (modelist_modes host))] |}.
  exists (createModeMenu (modelist_modes host)).
  split; [reflexivity |]. split; [reflexivity |].
  split; [unfold createModeMenu; rewrite map_map; reflexivity |].
  intros item w2 Hin. unfold createModeMenu in Hin. apply in_map_iff in Hin.
  destruct Hin as (m & <- & _). reflexivity.
Qed.

(** *** Before the widget exists *)

(** X7. While [editor] is still unset, the listeners registered by
    [createApplication] that touch the widget throw a TypeError and leave
    everything as it was: the resize, blur and focus listeners of the window,
    and the listeners of [new-file], [open-file] and, when a file is open,
    [save-file]; in particular no read and no write is issued.  (The cursor
    listener is not among them: it is registered only once the widget
    exists.) *)
Theorem listeners_throw_before_mount (w : World E) :
  editor w = None ->
  (forall i, In i [WinResized; WinBlur; WinFocus] ->
     step host i w = Thrown (TypeError "editor is undefined") w) /\
  (forall ev, (is_save_file ev = true -> args_file w <> None) ->
     on_basic host ev w = Thrown (TypeError "editor is undefined") w).
Proof.
  intros He. destruct w as [ed fl st ps cs]; simpl in *; subst. split.
  - intros i [<- | [<- | [<- | []]]]; reflexivity.
  - intros [| item | item] Hev; try reflexivity.
    destruct fl as [f |]; [reflexivity |]. exfalso. now apply Hev.
Qed.

(** *** Saving *)

Lemma wire_save_twice (w : World E) : wire (wire save) w = wire save w.
Proof.
  destruct w as [[e |] [f |] st ps cs]; reflexivity.
Qed.

(** X8. The Save entry of the file menu and the [save-file] event of the
    helper do the same thing in every world: the entry calls [actions.save]
    from inside the [menuSave] action, the event calls it directly, and the
    descriptor the event carries is not looked at. *)
Theorem save_entry_acts_as_save_file_event
  (current : option VFSFile) (ev_item : VFSFile) (w : World E) :
  exists item,
    nth_error (createFileMenu current (translate host)) 2 = Some item /\
    onclick item = click_menuSave /\
    click host item w = on_basic host (save_file ev_item) w.
Proof.
  eexists. split; [reflexivity |]. split; [reflexivity |].
  unfold click, on_basic, menuSave; simpl. unfold bind.
  now rewrite wire_save_twice.
Qed.

(** *** Dropping a file on a MIME list with a bad pattern *)

Lemma find_mime_throws (regexp : string -> Result (string -> bool))
  (l1 l2 : list string) (m s : string) (e : JsError) :
  Forall (fun x => exists re, regexp x = Ok re /\ re s = false) l1 ->
  regexp m = Throw e ->
  find_mime regexp (l1 ++ m :: l2) s = Throw e.
Proof.
  intros Hl1 Hm. induction Hl1 as [| x l1 (re & Hre & Hs) _ IH]; simpl.
  - now rewrite Hm.
  - now rewrite Hre, Hs.
Qed.

(** X10. A pattern of the MIME list that does not compile makes the drop
    listener throw the error of [new RegExp] when no pattern before it matches
    the MIME type of a dropped file: nothing is opened and nothing changes,
    even if a pattern after it would have matched. *)
Theorem drop_throws_on_uncompilable_pattern
  (data : VFSFile) (w : World E) (l1 l2 : list string) (m : string) (e : JsError) :
  isFile data = true ->
  truthy_opt (mime data) = true ->
  metadata_mimes host = l1 ++ m :: l2 ->
  Forall (fun x => exists re, RegExp host x = Ok re /\ re (ToString (mime data)) = false) l1 ->
  RegExp host m = Throw e ->
  on_drop host data w = Thrown e w.
Proof.
  intros Hf Hm Hl Hl1 He. unfold on_drop. rewrite Hf, Hm. simpl.
  unfold bind, lift. rewrite Hl.
  now rewrite (find_mime_throws (RegExp host) l1 l2 m _ e Hl1 He).
Qed.

(** *** Reads in flight *)

Lemma nth_error_last_S {A} (l : list A) (x y : A) :
  nth_error ((l ++ [x]) ++ [y]) (S (length l)) = Some y.
Proof.
  replace (S (length l)) with (length (l ++ [x])).
  - apply nth_error_last.
  - rewrite length_app. simpl. apply PeanoNat.Nat.add_1_r.
Qed.

Lemma remove_nth_last_S {A} (l : list A) (x y : A) :
  remove_nth (S (length l)) ((l ++ [x]) ++ [y]) = l ++ [x].
Proof.
  replace (S (length l)) with (length (l ++ [x])).
  - apply remove_nth_last.
  - rewrite length_app. simpl. apply PeanoNat.Nat.add_1_r.
Qed.

(** X11. Reads are not cancelled.  When a second file is opened while the
    read of a first one is pending and the first read is fulfilled last, its
    text replaces the text of the second file: the widget ends with the
    grammar of the second file and the text of the first. *)
Theorem late_read_overwrites_later_open
  (a b : VFSFile) (ta tb : string) (w : World E) (e : E) :
  editor w = Some e ->
  exists w1 w2 w3 w4,
    on_basic host (open_file a) w = Done tt w1 /\
    on_basic host (open_file b) w1 = Done tt w2 /\
    settle (S (length (promises w))) (Fulfilled (text tb)) w2 = Some (Fulfilled (text tb), w3) /\
    settle (length (promises w)) (Fulfilled (text ta)) w3 = Some (Fulfilled (text ta), w4) /\
    editor w4 =
      Some (setValue ta (setValue tb
              (session_setMode (Mode.mode (modelist_getModeForPath host (path b)))
                 (session_setMode (Mode.mode (modelist_getModeForPath host (path a))) e)))) /\
    promises w4 = promises w.
Proof.
  intros He.
  eexists. eexists. eexists. eexists.
  split; [apply (on_open_file host a w e He) |].
  split; [apply on_open_file; reflexivity |].
  split.
  { apply (settle_read_fulfilled b); cbn [promises editor];
      [apply nth_error_last_S | reflexivity]. }
  split.
  { apply (settle_read_fulfilled a); cbn [promises editor]; [| reflexivity].
    rewrite remove_nth_last_S. apply nth_error_last. }
  cbn [promises editor]. split; [reflexivity |].
  rewrite remove_nth_last_S. apply remove_nth_last.
Qed.

(** *** New, open and save together *)

(** X12. With a helper whose [createNew] forgets the open file and emits
    [new-file]: after a click on New, on a mounted widget, no file is open; the
    file menu then shows Save disabled, and a click on Save all the same writes
    nothing and changes nothing. *)
Theorem after_new_save_is_disabled_and_idle (w : World E) (e : E) :
  (forall file, basic_createNew (basic host) file
                = {| file_after := None; emitted := [new_file] |}) ->
  editor w = Some e ->
  exists item w1,
    nth_error (createFileMenu (args_file w) (translate host)) 0 = Some item /\
    click host item w = Done tt w1 /\
    args_file w1 = None /\
    forall item',
      In item' (createFileMenu (args_file w1) (translate host)) ->
      onclick item' = click_menuSave ->
      is_disabled item' = true /\ click host item' w1 = Done tt w1.
Proof.
  intros Hnew He.
  exists {| label := translate host "LBL_NEW"; disabled := None; onclick := click_menuNew |}.
  exists {| editor := Some (setValue "" e); args_file := None; state := state w;
            promises := promises w; calls := calls w ++ [BasicCreateNew; EditorSetValue ""] |}.
  split; [reflexivity |]. split.
  { unfold click; simpl.
    unfold wire, menuNew, react, bind, call, get_file, set_file; simpl.
    rewrite Hnew. simpl.
    unfold setText, bind, the_editor; simpl. rewrite He. simpl.
    now rewrite <- app_assoc. }
  split; [reflexivity |].
  simpl. intros item' [<- | [<- | [<- | [<- | [<- | []]]]]] Hclick; try discriminate Hclick.
  split; reflexivity.
Qed.

(** X13. With a helper whose [open] remembers the file and emits
    [open-file]: when a file has been opened on a mounted widget and its read
    fulfilled, the next save writes to that same file, and what it writes is
    the text the widget returns after [setValue] of the text that was read. *)
Theorem opened_file_is_saved_to_itself (item : VFSFile) (t : string) (w : World E) (e : E) :
  basic_open (basic host) item (args_file w)
    = {| file_after := Some item; emitted := [open_file item] |} ->
  editor w = Some e ->
  exists w1 w2 w3,
    open host item w = Done tt w1 /\
    settle (length (promises w)) (Fulfilled (text t)) w1 = Some (Fulfilled (text t), w2) /\
    wire save w2 = Done None w3 /\
    writes (calls w3) =
      writes (calls w) ++
      [(item, getValue (setValue t
                (session_setMode (Mode.mode (modelist_getModeForPath host (path item))) e)))] /\
    promises w3 =
      promises w ++
      [save_promise item
         (getValue (setValue t
            (session_setMode (Mode.mode (modelist_getModeForPath host (path item))) e)))].
Proof.
  intros Hopen He.
  eexists. eexists. eexists.
  split.
  { unfold open, react, bind, call, get_file, set_file; simpl. rewrite Hopen. simpl.
    unfold wire, bind. rewrite (load_mounted host item _ e) by exact He. reflexivity. }
  split.
  { apply (settle_read_fulfilled item); cbn [promises editor];
      [apply nth_error_last | reflexivity]. }
  split.
  { unfold wire, bind. rewrite (save_open _ item _) by reflexivity. reflexivity. }
  cbn [promises editor calls args_file]. rewrite remove_nth_last. split; [| reflexivity].
  rewrite !writes_app. simpl. now rewrite !app_nil_r.
Qed.

End Listeners.

(** * The further properties on the reference widget and host *)

(** X4 on a click on New with a file open: nothing is written. *)
Lemma only_saving_writes_witness :
  writes (calls (world_of
    (step (ref_host [])
       (MenuClick {| label := "LBL_NEW"; disabled := None; onclick := click_menuNew |})
       (world_with (Some main_py) two_lines)))) = [].
Proof.
  exact (only_saving_writes (ref_host [])
           (MenuClick {| label := "LBL_NEW"; disabled := None; onclick := click_menuNew |})
           (world_with (Some main_py) two_lines) eq_refl).
Defined.

(** X5 on the one theme of the reference theme list. *)
Lemma theme_menu_entry_sets_its_theme_witness :
  exists w1 menu item w3,
    wire (themeMenu (ref_host []) 3%N) (world_with None two_lines) = Done None w1 /\
    map label menu = ["Monokai"%string] /\
    In item menu /\
    click (ref_host []) item (world_with None two_lines) = Done tt w3 /\
    theme (state w3) = "ace/theme/monokai"%string /\
    calls w3 = [EditorSetTheme "ace/theme/monokai"].
Proof.
  destruct (theme_menu_entry_sets_its_theme (ref_host []) 3%N
              {| Theme.name := "ace/theme/monokai"; Theme.caption := "Monokai" |}
              (world_with None two_lines) (or_introl eq_refl))
    as (w1 & menu & item & Hshow & _ & Hlabels & _ & Hin & _ & Hclick).
  destruct (Hclick (world_with None two_lines) two_lines eq_refl)
    as (w3 & Hc & _ & Hcalls & Hstate & _).
  exists w1, menu, item, w3. repeat split; try assumption.
  now rewrite Hstate.
Defined.

(** X7 on the world [createApplication] leaves. *)
Lemma listeners_throw_before_mount_witness :
  (forall i, In i [WinResized; WinBlur; WinFocus] ->
     step (ref_host []) i (initial_world (E := Buffer) (Some main_py))
     = Thrown (TypeError "editor is undefined") (initial_world (Some main_py))) /\
  (forall ev, (is_save_file ev = true -> Some main_py <> None) ->
     on_basic (ref_host []) ev (initial_world (E := Buffer) (Some main_py))
     = Thrown (TypeError "editor is undefined") (initial_world (Some main_py))).
Proof.
  exact (listeners_throw_before_mount (ref_host []) (initial_world (Some main_py)) eq_refl).
Defined.

(** X9 on a text file dropped on a list of two patterns. *)
Lemma on_drop_opens_iff_accepted_witness :
  exists w',
    on_drop (ref_host ["^text"; "application\/json"]%string) notes_txt
      (world_with None two_lines) = Done tt w' /\
    (accepted (ref_host ["^text"; "application\/json"]%string) notes_txt ->
     opens (calls w') = [notes_txt]) /\
    (~ accepted (ref_host ["^text"; "application\/json"]%string) notes_txt ->
     w' = world_with None two_lines).
Proof.
  apply (on_drop_opens_iff_accepted (ref_host ["^text"; "application\/json"]%string)
           notes_txt (world_with None two_lines)).
  - discriminate.
  - repeat constructor; eexists; reflexivity.
  - repeat constructor.
Defined.

(** C9 on a text file dropped on a list of two patterns. *)
Lemma drop_is_opened_iff_file_with_matching_mime_witness :
  exists w',
    on_drop (ref_host ["^text"; "application\/json"]%string) notes_txt
      (world_with None two_lines) = Done tt w' /\
    (opens (calls w') = [notes_txt] <->
     isFile notes_txt = true /\
     truthy_opt (mime notes_txt) = true /\
     exists m, In m ["^text"; "application\/json"]%string /\
               pattern_matches literal_RegExp m "text/plain") /\
    (opens (calls w') <> [notes_txt] -> w' = world_with None two_lines).
Proof.
  apply (drop_is_opened_iff_file_with_matching_mime
           (ref_host ["^text"; "application\/json"]%string)
           notes_txt (world_with None two_lines)).
  - discriminate.
  - repeat constructor; eexists; reflexivity.
  - repeat constructor.
Defined.

(** X10 on a list whose second pattern is an unclosed group: the text
    file is not opened although the third pattern matches it. *)
Lemma drop_throws_on_uncompilable_pattern_witness :
  on_drop (ref_host ["^image"; "("; "^text"]%string) notes_txt (world_with None two_lines)
  = Thrown (SyntaxError "(") (world_with None two_lines).
Proof.
  apply (drop_throws_on_uncompilable_pattern (ref_host ["^image"; "("; "^text"]%string)
           notes_txt (world_with None two_lines) ["^image"%string] ["^text"%string]
           "("%string (SyntaxError "(")).
  - reflexivity.
  - reflexivity.
  - reflexivity.
  - repeat constructor. eexists. split; reflexivity.
  - reflexivity.
Defined.

(** X11 on [main.py] opened first and read last, [notes.txt] opened second
    and read first. *)
Lemma late_read_overwrites_later_open_witness :
  exists w1 w2 w3 w4,
    on_basic (ref_host []) (open_file main_py) (world_with None (buffer_edit 0%N)) = Done tt w1 /\
    on_basic (ref_host []) (open_file notes_txt) w1 = Done tt w2 /\
    settle 1 (Fulfilled (text "remember the milk")) w2
      = Some (Fulfilled (text "remember the milk"), w3) /\
    settle 0 (Fulfilled (text "x = 1")) w3 = Some (Fulfilled (text "x = 1"), w4) /\
    option_map buffer_mode (editor w4) = Some "ace/mode/text"%string /\
    option_map buffer_value (editor w4) = Some "x = 1"%string.
Proof.
  destruct (late_read_overwrites_later_open (ref_host []) main_py notes_txt
              "x = 1" "remember the milk" (world_with None (buffer_edit 0%N))
              (buffer_edit 0%N) eq_refl)
    as (w1 & w2 & w3 & w4 & H1 & H2 & H3 & H4 & He4 & _).
  exists w1, w2, w3, w4. repeat split; try assumption; now rewrite He4.
Defined.

(** X12 on a widget holding two lines, [main.py] open. *)
Lemma after_new_save_is_disabled_and_idle_witness :
  exists item w1,
    nth_error (createFileMenu (Some main_py) (fun key => key)) 0 = Some item /\
    click (ref_host []) item (world_with (Some main_py) two_lines) = Done tt w1 /\
    args_file w1 = None /\
    forall item',
      In item' (createFileMenu (args_file w1) (fun key => key)) ->
      onclick item' = click_menuSave ->
      is_disabled item' = true /\ click (ref_host []) item' w1 = Done tt w1.
Proof.
  exact (after_new_save_is_disabled_and_idle (ref_host [])
           (world_with (Some main_py) two_lines) two_lines (fun _ => eq_refl) eq_refl).
Defined.

(** X13 on [main.py] opened over an empty widget and read as one line. *)
Lemma opened_file_is_saved_to_itself_witness :
  exists w1 w2 w3,
    open (ref_host []) main_py (world_with None (buffer_edit 0%N)) = Done tt w1 /\
    settle 0 (Fulfilled (text "x = 1")) w1 = Some (Fulfilled (text "x = 1"), w2) /\
    wire save w2 = Done None w3 /\
    writes (calls w3) = [(main_py, "x = 1"%string)] /\
    promises w3 = [save_promise main_py "x = 1"].
Proof.
  exact (opened_file_is_saved_to_itself (ref_host []) main_py "x = 1"
           (world_with None (buffer_edit 0%N)) (buffer_edit 0%N) eq_refl eq_refl).
Defined.
